(** * studyGen-RAG backend: a shallow embedding of [app.py] and [ai_service.py]

    The backend is sequential request/response glue around three external
    collaborators (a PDF text extractor, an embedding index and a remote
    language model).  The embedding below keeps the Python control flow
    (try/except/finally, early returns, loops with accumulators) and threads
    the process state explicitly:

    - Python [str] values are lists of Unicode code points;
    - dictionaries that end up in a JSON response are association lists in
      insertion order;
    - the upload directory is a finite map from paths to file contents;
    - the collaborators are the fields of an environment record [Env];
    - exceptions are the [Raise] results of a state-and-error monad. *)

From Stdlib Require Import Ascii NArith.
From stdpp Require Import base option list gmap strings pretty.

Set Warnings "-register-all".

(** ** Python strings *)

(** A Python [str] is a sequence of code points.  The source file contains
    code points above 255 (in the argument of [lstrip] in [generate_notes]),
    so a code point is an [N], not a byte. *)
Abbreviation str := (list N).

(** String literals of the source, written as Rocq strings of ASCII
    characters. *)
Definition py (x : string) : str :=
  (λ a, N_of_ascii a) <$> String.list_ascii_of_string x.

Module PyStr.

(** [str.isspace] on one code point: the code points that [str.strip()]
    removes (CPython's [_PyUnicode_IsWhitespace]). *)
Definition isspace (c : N) : bool :=
  ((9 <=? c) && (c <=? 13) || (28 <=? c) && (c <=? 32)
   || (c =? 133) || (c =? 160) || (c =? 5760)
   || (8192 <=? c) && (c <=? 8202)
   || (c =? 8232) || (c =? 8233) || (c =? 8239) || (c =? 8287)
   || (c =? 12288))%N.

(** Drop the longest prefix whose code points satisfy [p]. *)
Fixpoint lstrip_by (p : N → bool) (s : str) : str :=
  match s with
  | [] => []
  | c :: r => if p c then lstrip_by p r else s
  end.

(** Drop the longest suffix whose code points satisfy [p]. *)
Fixpoint rstrip_by (p : N → bool) (s : str) : str :=
  match s with
  | [] => []
  | c :: r =>
      match rstrip_by p r with
      | [] => if p c then [] else [c]
      | r' => c :: r'
      end
  end.

(** [s.strip()] *)
Definition strip (s : str) : str := rstrip_by isspace (lstrip_by isspace s).

(** [c in chars] for a one-character [c]. *)
Definition char_in (chars : str) (c : N) : bool :=
  existsb (N.eqb c) chars.

(** [s.lstrip(chars)] *)
Definition lstrip (chars : str) (s : str) : str :=
  lstrip_by (char_in chars) s.

(** [s.split(sep)] for a separator of one code point. *)
Fixpoint split (sep : N) (s : str) : list str :=
  match s with
  | [] => [[]]
  | c :: r =>
      if (c =? sep)%N then [] :: split sep r
      else match split sep r with
           | h :: t => (c :: h) :: t
           | [] => [[c]]
           end
  end.

(** [s.rsplit(sep, 1)] for a separator of one code point: the text before
    the last separator and the text after it, or [s] alone when there is
    no separator. *)
Fixpoint rsplit1 (sep : N) (s : str) : list str :=
  match s with
  | [] => [[]]
  | c :: r =>
      match rsplit1 sep r with
      | [a; b] => [c :: a; b]
      | _ => if (c =? sep)%N then [[]; r] else [s]
      end
  end.

(** [s.startswith(p)] *)
Fixpoint startswith (p s : str) : bool :=
  match p, s with
  | [], _ => true
  | a :: p', b :: s' => (a =? b)%N && startswith p' s'
  | _ :: _, [] => false
  end.

(** [s.endswith(p)] *)
Definition endswith (p s : str) : bool :=
  startswith (reverse p) (reverse s).

(** Truth value of a [str]: non-empty. *)
Definition truthy (s : str) : bool :=
  match s with [] => false | _ :: _ => true end.

(** [s.lower()].  Only the ASCII letters are mapped; the other code points
    are left alone.  The source compares the result with ['pdf'] only, and
    in CPython the code points whose lower-casing contains [p], [d] or [f]
    are exactly those six ASCII letters (and no code point lower-cases to
    the empty string), so the comparison is decided as in CPython. *)
Definition lower_char (c : N) : N :=
  if ((65 <=? c) && (c <=? 90))%N then (c + 32)%N else c.
Definition lower (s : str) : str := lower_char <$> s.

(** [p in s] for strings: [p] occurs as a substring of [s]. *)
Fixpoint contains (p s : str) : bool :=
  startswith p s ||
  match s with
  | [] => false
  | _ :: r => contains p r
  end.

End PyStr.

(** ** Values, exceptions and the environment *)

(** The Python values that the handlers receive from [get_json] and hand to
    [jsonify]: [None], booleans, integers, strings, lists and dictionaries
    (in insertion order). *)
Inductive value :=
| VNull
| VBool (b : bool)
| VNum (n : Z)
| VStr (s : str)
| VList (l : list value)
| VDict (items : list (str * value)).

(** [{**d, k: v}] on the items of a dictionary: the value of [k] is replaced
    where it stands, or the item is added at the end. *)
Fixpoint dict_set (k : str) (v : value) (items : list (str * value))
  : list (str * value) :=
  match items with
  | [] => [(k, v)]
  | (k', v') :: rest =>
      if bool_decide (k' = k) then (k, v) :: rest
      else (k', v') :: dict_set k v rest
  end.

(** [d[k]] on the items of a dictionary. *)
Fixpoint dict_get (k : str) (items : list (str * value)) : option value :=
  match items with
  | [] => None
  | (k', v) :: rest => if bool_decide (k' = k) then Some v else dict_get k rest
  end.

Inductive exn_class :=
| RequestEntityTooLarge
| AttributeError
| OtherException.

(** An exception: its class and [str(e)]. *)
Record exn := Exn { exn_cls : exn_class; exn_str : str }.

Inductive result (A : Type) :=
| Ok (a : A)
| Raise (e : exn).
Arguments Ok {A} a.
Arguments Raise {A} e.

Inductive level := INFO | WARNING | ERROR.

(** The calls into the chunking and retrieval libraries, with the parameters
    they are made with; [Retrieve k input] is a call of a chain over a
    retriever with [k], with the argument that the source gives it. *)
Inductive call :=
| SplitText (chunk_size chunk_overlap : nat) (text : str)
| FromTexts (texts : list str)
| Retrieve (k : nat) (query : value).

(** The collaborators of the backend that are not part of it.

    - [split_text cs ov]: [RecursiveCharacterTextSplitter(chunk_size=cs,
      chunk_overlap=ov, length_function=len).split_text];
    - [from_texts]: [FAISS.from_texts(texts, embeddings)], which computes the
      embeddings locally and may fail;
    - [llm_run n vs k q]: running a [RetrievalQA] "stuff" chain whose
      retriever is [vs.as_retriever(search_kwargs={"k": k})] on the query
      [q] (a prompt in the calls of [run], the query of the chain's inputs
      in [query_response]); the remote model may answer differently, or fail, from one call to
      the next, so the outcome also depends on the number [n] of library
      calls made before;
    - [uuid_gen n]: the text of the [n]-th [uuid.uuid4()] of the process;
    - [secure_filename]: [werkzeug.utils.secure_filename];
    - [extract_text]: the text extractor applied to the content of a file;
    - [save_fault], [remove_fault]: the failure, if any, of [file.save] and
      [os.remove] on a path. *)
Record Env := {
  FAISS : Type;
  split_text : nat → nat → str → list str;
  from_texts : list str → result FAISS;
  llm_run : nat → FAISS → nat → value → result str;
  uuid_gen : nat → str;
  secure_filename : str → str;
  extract_text : list Byte.byte → result str;
  save_fault : str → option exn;
  remove_fault : str → option exn;
}.
Existing Class Env.

(** The process state: the [vectorStore] attribute of the one [AIService]
    object ([None] while the attribute has not been assigned), the log, the
    number of identifiers drawn so far, the files of the upload directory and
    the library calls made so far. *)
Record World {E : Env} := {
  vectorStore : option (FAISS E);
  log : list (level * str);
  uuid_ctr : nat;
  fs : gmap str (list Byte.byte);
  calls : list call;
}.
Arguments World : clear implicits.

Section Monad.
Context {E : Env}.

(** A computation reads and updates the process state and either returns or
    raises. *)
Definition M (A : Type) : Type := World E → World E * result A.

#[export] Instance M_ret : MRet M := λ A a w, (w, Ok a).

#[export] Instance M_bind : MBind M := λ A B f m w,
  match m w with
  | (w', Ok a) => f a w'
  | (w', Raise e) => (w', Raise e)
  end.

Definition raise {A} (e : exn) : M A := λ w, (w, Raise e).

(** [try: body  except Exception as e: handler e] *)
Definition try_except {A} (body : M A) (handler : exn → M A) : M A := λ w,
  match body w with
  | (w', Ok a) => (w', Ok a)
  | (w', Raise e) => handler e w'
  end.

(** [try: body  finally: cleanup]: the cleanup runs on both exits; the
    outcome of the body stands unless the cleanup itself raises. *)
Definition try_finally {A} (body : M A) (cleanup : M unit) : M A := λ w,
  match body w with
  | (w', r) =>
      match cleanup w' with
      | (w'', Ok _) => (w'', r)
      | (w'', Raise e) => (w'', Raise e)
      end
  end.

(** A [for] loop that threads its local variables [s] through the body. *)
Fixpoint for_each {A S} (body : S → A → M S) (s : S) (l : list A) : M S :=
  match l with
  | [] => mret s
  | x :: rest => s' ← body s x; for_each body s' rest
  end.

(** *** Primitive effects *)

Definition logger (lvl : level) (msg : str) : M unit := λ w,
  ({| vectorStore := vectorStore w; log := log w ++ [(lvl, msg)];
      uuid_ctr := uuid_ctr w; fs := fs w; calls := calls w |}, Ok ()).

(** [str(uuid.uuid4())] *)
Definition uuid4 : M str := λ w,
  ({| vectorStore := vectorStore w; log := log w;
      uuid_ctr := S (uuid_ctr w); fs := fs w; calls := calls w |},
   Ok (uuid_gen E (uuid_ctr w))).

Definition record_call (c : call) : M unit := λ w,
  ({| vectorStore := vectorStore w; log := log w;
      uuid_ctr := uuid_ctr w; fs := fs w; calls := calls w ++ [c] |}, Ok ()).

(** Reading [self.vectorStore]: an [AttributeError] while the attribute has
    not been assigned. *)
Definition get_vectorStore : M (FAISS E) := λ w,
  match vectorStore w with
  | Some vs => (w, Ok vs)
  | None =>
      (w, Raise (Exn AttributeError
                   (py "'AIService' object has no attribute 'vectorStore'")))
  end.

(** [self.vectorStore = vs] *)
Definition set_vectorStore (vs : FAISS E) : M unit := λ w,
  ({| vectorStore := Some vs; log := log w;
      uuid_ctr := uuid_ctr w; fs := fs w; calls := calls w |}, Ok ()).

Definition lift_result {A} (r : result A) : M A := λ w, (w, r).

(** [file.save(path)]: on success the upload directory maps [path] to the
    uploaded content; a save that fails raises and is taken to leave the
    directory as it was. *)
Definition file_save (content : list Byte.byte) (path : str) : M unit := λ w,
  match save_fault E path with
  | Some e => (w, Raise e)
  | None =>
      ({| vectorStore := vectorStore w; log := log w; uuid_ctr := uuid_ctr w;
          fs := <[path := content]> (fs w); calls := calls w |}, Ok ())
  end.

(** [os.remove(path)] *)
Definition os_remove (path : str) : M unit := λ w,
  match remove_fault E path with
  | Some e => (w, Raise e)
  | None =>
      match fs w !! path with
      | None =>
          (w, Raise (Exn OtherException
                       (py "[Errno 2] No such file or directory: '"
                          ++ path ++ py "'")))
      | Some _ =>
          ({| vectorStore := vectorStore w; log := log w;
              uuid_ctr := uuid_ctr w; fs := delete path (fs w);
              calls := calls w |}, Ok ())
      end
  end.

End Monad.

(** ** [ai_service.py]: the [AIService] class *)

(** The three prompt templates, as the string constants of the source. *)
Definition summary_prompt : str := py "
            Based on the provided text, create a comprehensive summary that captures the main ideas, 
            key concepts, and important details. The summary should be well-structured and easy to understand.
            
            Please provide a summary that:
            1. Highlights the most important points
            2. Maintains logical flow
            3. Is concise but comprehensive
            4. Uses clear language
            ".

Definition notes_prompt : str := py "
            Extract the most important key points and concepts from the provided text. 
            Present them as a list of concise, well-structured notes.
            
            Each note should:
            1. Capture a single important concept or idea
            2. Be clear and easy to understand
            3. Be actionable for studying
            4. Be specific and informative
            
            Provide 5-10 key notes from this text.
            Format each note as a complete sentence or phrase.
            ".

Definition flashcards_prompt : str := py "
            Create study flashcards from the provided text. Each flashcard should have a clear question 
            and a comprehensive answer.
            
            Generate 5-8 flashcards that:
            1. Test understanding of key concepts
            2. Have clear, specific questions
            3. Have detailed, accurate answers
            4. Cover different aspects of the material
            
            Format each flashcard as:
            Q: [Question]
            A: [Answer]
            
            Separate each flashcard with a blank line.
            ".

(** The text splitter built in [__init__]. *)
Record TextSplitter := { chunk_size : nat; chunk_overlap : nat }.

Definition text_splitter : TextSplitter :=
  {| chunk_size := 1000; chunk_overlap := 200 |}.

(** The argument of [lstrip] in [generate_notes], code point by code point:
    U+00E2, U+20AC, U+00A2, then [-*1234567890. ]. *)
Definition notes_lstrip_chars : str :=
  [226; 8364; 162]%N ++ py "-*1234567890. ".

(** The body of the loop over the lines of the reply in [generate_notes]. *)
Definition notes_step (notes : list str) (line : str) : list str :=
  let line := PyStr.strip line in
  let clean_line := PyStr.lstrip notes_lstrip_chars line in
  if PyStr.truthy clean_line && bool_decide (10 < length clean_line)
  then notes ++ [clean_line]
  else notes.

(** The parsing part of [generate_notes]: from the reply to the notes. *)
Definition parse_notes (reply : str) : list str :=
  let lines := PyStr.split 10 (PyStr.strip reply) in
  take 10 (foldl notes_step [] lines).

(** A flashcard dictionary. *)
Definition flashcard (id question answer : str) : value :=
  VDict [(py "id", VStr id); (py "question", VStr question);
         (py "answer", VStr answer)].

(** The local variables of the loop in [generate_flashcards]. *)
Record fc_state := {
  flashcards : list value;
  current_question : str;
  current_answer : str;
}.

Section AIService.
Context {E : Env}.

(** [self.text_splitter.split_text(text)] *)
Definition splitter_split_text (ts : TextSplitter) (text : str)
  : M (list str) :=
  record_call (SplitText (chunk_size ts) (chunk_overlap ts) text);;
  mret (split_text E (chunk_size ts) (chunk_overlap ts) text).

(** [FAISS.from_texts(texts, self.embeddings)] *)
Definition FAISS_from_texts (texts : list str) : M (FAISS E) :=
  record_call (FromTexts texts);;
  lift_result (from_texts E texts).

(** [RetrievalQA.from_chain_type(llm, "stuff",
    retriever=vs.as_retriever(search_kwargs={"k": k})).run(query)] *)
Definition qa_chain_run (vs : FAISS E) (k : nat) (query : value) : M str :=
  λ w, (record_call (Retrieve k query);;
        lift_result (llm_run E (length (calls w)) vs k query)) w.

(** The inputs that a chain called as [qa_chain(text)] works on, and its
    query: a dictionary is taken as the inputs themselves and must have the
    key [query]; any other value is the query. *)
Definition chain_inputs (text : value)
  : result (list (str * value) * value) :=
  match text with
  | VDict items =>
      match dict_get (py "query") items with
      | Some q => Ok (items, q)
      | None =>
          Raise (Exn OtherException (py "Missing some input keys: {'query'}"))
      end
  | _ => Ok ([(py "query", text)], text)
  end.

(** [RetrievalQA.from_chain_type(llm, "stuff",
    retriever=vs.as_retriever(search_kwargs={"k": k}))(text)]: the call is
    made with [text]; the chain checks its inputs, runs on its query, and
    returns its inputs together with [result]. *)
Definition qa_chain_call (vs : FAISS E) (k : nat) (text : value) : M value :=
  λ w, (record_call (Retrieve k text);;
        '(inputs, q) ← lift_result (chain_inputs text);
        answer ← lift_result (llm_run E (length (calls w)) vs k q);
        mret (VDict (dict_set (py "result") (VStr answer) inputs))) w.

Definition create_vector_store (text : str) : M (FAISS E) :=
  try_except
    (texts ← splitter_split_text text_splitter text;
     logger INFO (py "Split text into " ++ py (pretty (length texts))
                    ++ py " chunks");;
     vector_store ← FAISS_from_texts texts;
     logger INFO (py "Vector store created successfully");;
     set_vectorStore vector_store;;
     mret vector_store)
    (λ e,
       logger ERROR (py "Error creating vector store: " ++ exn_str e);;
       raise e).

(** [prompt.format(text=text[:2000])] returns the prompt itself: the template
    has no replacement field. *)
Definition generate_summary (text : str) : M str :=
  try_except
    (vector_store ← create_vector_store text;
     result ← qa_chain_run vector_store 3 (VStr summary_prompt);
     mret (PyStr.strip result))
    (λ e,
       logger ERROR (py "Error generating summary: " ++ exn_str e);;
       mret (py "Failed to generate summary. Please try again.")).

Definition generate_notes (text : str) : M (list str) :=
  try_except
    (vector_store ← get_vectorStore;
     result ← qa_chain_run vector_store 4 (VStr notes_prompt);
     mret (parse_notes result))
    (λ e,
       logger ERROR (py "Error generating notes: " ++ exn_str e);;
       mret [py "Failed to generate notes. Please try again."]).

(** [if current_question and current_answer: flashcards.append({...})] *)
Definition fc_flush (st : fc_state) : M (list value) :=
  if PyStr.truthy (current_question st) && PyStr.truthy (current_answer st)
  then id ← uuid4;
       mret (flashcards st
               ++ [flashcard id (current_question st) (current_answer st)])
  else mret (flashcards st).

(** The body of the loop over the lines of the reply. *)
Definition fc_step (st : fc_state) (line : str) : M fc_state :=
  let line := PyStr.strip line in
  if PyStr.startswith (py "Q:") line then
    cards ← fc_flush st;
    mret {| flashcards := cards;
            current_question := PyStr.strip (drop 2 line);
            current_answer := [] |}
  else if PyStr.startswith (py "A:") line then
    mret {| flashcards := flashcards st;
            current_question := current_question st;
            current_answer := PyStr.strip (drop 2 line) |}
  else if PyStr.truthy line && PyStr.truthy (current_answer st) then
    mret {| flashcards := flashcards st;
            current_question := current_question st;
            current_answer := current_answer st ++ py " " ++ line |}
  else mret st.

(** The parsing part of [generate_flashcards]: from the reply to the
    flashcards. *)
Definition parse_flashcards (reply : str) : M (list value) :=
  let lines := PyStr.split 10 (PyStr.strip reply) in
  st ← for_each fc_step
         {| flashcards := []; current_question := [];
            current_answer := [] |} lines;
  cards ← fc_flush st;
  mret (take 8 cards).

Definition generate_flashcards (text : str) : M (list value) :=
  try_except
    (vector_store ← get_vectorStore;
     result ← qa_chain_run vector_store 4 (VStr flashcards_prompt);
     parse_flashcards result)
    (λ e,
       logger ERROR (py "Error generating flashcards: " ++ exn_str e);;
       id ← uuid4;
       mret [flashcard id (py "Error generating flashcards")
               (py "Please try again with a different document.")]).

Definition generate_study_materials (text : str) : M value :=
  try_except
    (logger INFO (py "Starting study materials generation...");;
     vector_store ← create_vector_store text;
     summary ← generate_summary text;
     notes ← generate_notes text;
     flashcards ← generate_flashcards text;
     let study_materials :=
       VDict [(py "summary", VStr summary);
              (py "notes", VList (VStr <$> notes));
              (py "flashcards", VList flashcards)] in
     logger INFO (py "Study materials generated successfully");;
     mret study_materials)
    (λ e,
       logger ERROR (py "Error generating study materials: " ++ exn_str e);;
       id ← uuid4;
       mret (VDict [(py "summary", VStr (py "Failed to generate summary."));
                    (py "notes", VList [VStr (py "Failed to generate notes.")]);
                    (py "flashcards",
                     VList [flashcard id (py "Error occurred")
                              (py "Please try again.")])])).

Definition query_response (text : value) : M value :=
  try_except
    (vector_store ← get_vectorStore;
     result ← qa_chain_call vector_store 4 text;
     mret result)
    (λ e,
       logger ERROR (py "Error generating flashcards: " ++ exn_str e);;
       id ← uuid4;
       mret (VList [VDict [(py "id", VStr id);
                           (py "message", VStr (py "Something went wrong"))]])).

End AIService.

(** ** [app.py]: the Flask routes *)

Definition UPLOAD_FOLDER : str := py "uploads".
Definition ALLOWED_EXTENSIONS : gset str := {[ py "pdf" ]}.
Definition MAX_CONTENT_LENGTH : N := 4 * 1024 * 1024.

(** An uploaded file part: its client-side name and its content. *)
Record FileStorage := { filename : str; stream : list Byte.byte }.

(** A request: the length of its body; the file parts of its multipart form
    under their field names, or [None] when the framework refuses to parse
    the form because it exceeds the framework's own limits on the number of
    parts or on the size of the fields; and the outcome of
    [request.get_json()]. *)
Record Request := {
  content_length : N;
  form : option (list (str * FileStorage));
  get_json : result value;
}.

(** What [request.files] holds for the view: the file parts of the form,
    and no part at all for a form that the framework refuses. *)
Definition files (req : Request) : list (str * FileStorage) :=
  default [] (form req).

(** A response: the status code and the value given to [jsonify]. *)
Record Response := { status : nat; body : value }.

(** [request.files[name]], the first part under that field name. *)
Fixpoint files_get (name : str) (parts : list (str * FileStorage))
  : option FileStorage :=
  match parts with
  | [] => None
  | (n, f) :: rest => if bool_decide (n = name) then Some f
                      else files_get name rest
  end.

Definition allowed_file (filename : str) : bool :=
  PyStr.char_in filename 46 &&
  match PyStr.rsplit1 46 filename !! 1 with
  | Some ext => bool_decide (PyStr.lower ext ∈ ALLOWED_EXTENSIONS)
  | None => false
  end.

(** [os.path.join(a, b)] for a relative [b]. *)
Definition path_join (a b : str) : str := a ++ py "/" ++ b.

(** [jsonify({'error': msg}), code] *)
Definition error_response (msg : str) (code : nat) : Response :=
  {| status := code; body := VDict [(py "error", VStr msg)] |}.

(** Truth value of a Python value. *)
Definition value_truthy (v : value) : bool :=
  match v with
  | VNull => false
  | VBool b => b
  | VNum n => negb (n =? 0)%Z
  | VStr s => PyStr.truthy s
  | VList l => match l with [] => false | _ => true end
  | VDict items => match items with [] => false | _ => true end
  end.

Definition type_error (msg : string) : exn := Exn OtherException (py msg).

(** [k in v] *)
Definition value_contains (k : str) (v : value) : result bool :=
  match v with
  | VDict items => Ok (bool_decide (k ∈ items.*1))
  | VList l =>
      Ok (existsb (λ x, match x with
                        | VStr s => bool_decide (s = k)
                        | _ => false
                        end) l)
  | VStr s => Ok (PyStr.contains k s)
  | _ => Raise (type_error "argument is not iterable")
  end.

(** [v[k]] for a string [k] *)
Definition value_getitem (k : str) (v : value) : result value :=
  match v with
  | VDict items =>
      match dict_get k items with
      | Some x => Ok x
      | None => Raise (Exn OtherException (py "'" ++ k ++ py "'"))
      end
  | VList _ => Raise (type_error "list indices must be integers or slices, not str")
  | VStr _ => Raise (type_error "string indices must be integers")
  | _ => Raise (type_error "object is not subscriptable")
  end.

Section App.
Context {E : Env}.

(** Reading [request.files]: the form is parsed on first access; a body
    longer than [MAX_CONTENT_LENGTH] is refused then, and so is a form that
    exceeds the framework's limits, both with [RequestEntityTooLarge]. *)
Definition request_files (req : Request) : M (list (str * FileStorage)) :=
  if bool_decide (MAX_CONTENT_LENGTH < content_length req)%N
  then raise (Exn RequestEntityTooLarge
                (py "413 Request Entity Too Large"))
  else match form req with
       | Some parts => mret parts
       | None => raise (Exn RequestEntityTooLarge
                          (py "413 Request Entity Too Large"))
       end.

(** Modelled from the spec: [pdf_processor.PDFProcessor.extract_text] is not
    among the sources; the spec has it read a PDF file from disk and return
    its concatenated textual content.  The text is a function of the file's
    content, the read fails when there is no such file, and the upload
    directory is left as it is. *)
Definition pdf_extract_text (filepath : str) : M str := λ w,
  match fs w !! filepath with
  | Some content => (w, extract_text E content)
  | None =>
      (w, Raise (Exn OtherException
                   (py "no such file: '" ++ filepath ++ py "'")))
  end.

Definition health_check : Response :=
  {| status := 200;
     body := VDict [(py "status", VStr (py "healthy"));
                    (py "message",
                     VStr (py "Study Notes Generator API is running"))] |}.

Definition process_pdf (req : Request) : M Response :=
  try_except
    (request_files ← request_files req;
     match files_get (py "pdf") request_files with
     | None => mret (error_response (py "No file provided") 400)
     | Some file =>
         if bool_decide (filename file = [])
         then mret (error_response (py "No file selected") 400)
         else if negb (allowed_file (filename file))
         then mret (error_response (py "Only PDF files are allowed") 400)
         else
           let filename := secure_filename E (filename file) in
           u ← uuid4;
           let unique_filename := u ++ py "_" ++ filename in
           let filepath := path_join UPLOAD_FOLDER unique_filename in
           file_save (stream file) filepath;;
           logger INFO (py "File uploaded: " ++ filepath);;
           try_finally
             (try_except
                (logger INFO (py "Extracting text from PDF...");;
                 text_content ← pdf_extract_text filepath;
                 if negb (PyStr.truthy (PyStr.strip text_content))
                 then mret (error_response
                              (py "No text could be extracted from the PDF")
                              400)
                 else
                   logger INFO (py "Generating study materials...");;
                   study_materials ← generate_study_materials text_content;
                   logger INFO (py "Study materials generated successfully");;
                   mret {| status := 200; body := study_materials |})
                (λ e,
                   logger ERROR (py "Error processing PDF: " ++ exn_str e);;
                   mret (error_response
                           (py "Failed to process PDF: " ++ exn_str e) 500)))
             (try_except
                (os_remove filepath;;
                 logger INFO (py "Cleaned up file: " ++ filepath))
                (λ e,
                   logger WARNING (py "Failed to clean up file " ++ filepath
                                     ++ py ": " ++ exn_str e)))
     end)
    (λ e,
       match exn_cls e with
       | RequestEntityTooLarge => raise e
       | _ =>
           logger ERROR (py "Unexpected error: " ++ exn_str e);;
           mret (error_response (py "An unexpected error occurred") 500)
       end).

Definition query_pdf (req : Request) : M Response :=
  try_except
    (data ← lift_result (get_json req);
     has_message ←
       (if negb (value_truthy data) then mret false
        else lift_result (value_contains (py "message") data));
     if negb has_message
     then mret (error_response (py "Message is required") 400)
     else
       user_message ← lift_result (value_getitem (py "message") data);
       response ← query_response user_message;
       mret {| status := 200; body := VDict [(py "response", response)] |})
    (λ e,
       logger ERROR (py "Error in query endpoint: " ++ exn_str e);;
       mret (error_response (py "Failed to get response") 500)).

(** [@app.errorhandler(RequestEntityTooLarge)] *)
Definition too_large (e : exn) : Response :=
  error_response (py "File too large. Maximum size is 4MB") 413.

(** What Flask does with a view: its response, or the registered error
    handler's when the view raises [RequestEntityTooLarge], or the
    framework's own 500 page for any other exception. *)
Definition dispatch (view : Request → M Response) (req : Request)
  (w : World E) : World E * Response :=
  match view req w with
  | (w', Ok r) => (w', r)
  | (w', Raise e) =>
      match exn_cls e with
      | RequestEntityTooLarge => (w', too_large e)
      | _ => (w', {| status := 500;
                     body := VStr (py "Internal Server Error") |})
      end
  end.

End App.

(** ** A concrete environment

    A small instance of [Env] on which the embedding can be run: the index
    is the list of its chunks, the splitter returns the text as one chunk,
    identifiers are pairwise distinct, and the model answers each of the
    three prompts with a fixed reply.  The extractor, the index builder and
    [os.remove] are parameters so that their failures can be exercised. *)

Definition demo_summary_reply : str :=
  py "  Retrieval grounds the answer of a generative model.
".

(** The third line starts with the bullet U+2022. *)
Definition demo_notes_reply : str :=
  py "Key notes:
1. Retrieval selects the chunks closest to the query.
" ++ [8226; 32]%N ++ py "Embeddings map text to vectors.
* An index answers nearest-neighbour queries.
- short".

Definition demo_flashcards_reply : str :=
  py "Q: What is an embedding?
A: A numeric vector
that represents text.

Q: What does k control?
A: The number of retrieved chunks.".

Definition demo_llm (n : nat) (vs : list str) (k : nat) (q : value)
  : result str :=
  match q with
  | VStr p =>
      if bool_decide (p = summary_prompt) then Ok demo_summary_reply
      else if bool_decide (p = notes_prompt) then Ok demo_notes_reply
      else if bool_decide (p = flashcards_prompt) then Ok demo_flashcards_reply
      else Ok (py "An answer.")
  | _ => Raise (Exn OtherException (py "unsupported query"))
  end.

Definition demo_uuid (n : nat) : str := py "id-" ++ replicate n 120%N.

Definition demo_env_with
    (extract : list Byte.byte → result str)
    (build : list str → result (list str))
    (rm : str → option exn) : Env :=
  {| FAISS := list str;
     split_text := λ _ _ text, [text];
     from_texts := build;
     llm_run := demo_llm;
     uuid_gen := demo_uuid;
     secure_filename := λ name, name;
     extract_text := extract;
     save_fault := λ _, None;
     remove_fault := rm |}.

(** The extractor reads each byte of the file as one code point. *)
Definition demo_extract (content : list Byte.byte) : result str :=
  Ok ((λ b, Byte.to_N b) <$> content).

Definition demo_env : Env := demo_env_with demo_extract Ok (λ _, None).

(** The state of a freshly started process with an empty upload
    directory. *)
Definition initial_world {E : Env} : World E :=
  {| vectorStore := None; log := []; uuid_ctr := 0; fs := ∅; calls := [] |}.

Definition demo_pdf : list Byte.byte :=
  [Byte.x52; Byte.x41; Byte.x47].

(** The state of a process in which a document has been uploaded before. *)
Definition demo_world : World demo_env :=
  @Build_World demo_env (Some [py "An earlier document."]) [] 5 ∅ [].

Definition upload (name : string) : Request :=
  {| content_length := 3;
     form := Some [(py "pdf", {| filename := py name; stream := demo_pdf |})];
     get_json := Raise (Exn OtherException (py "415 Unsupported Media Type")) |}.


(** * Specifications and auxiliary definitions *)

(** ** Concrete environments with a failing collaborator *)

(** An extractor that fails on every file. *)
Definition broken_pdf_env : Env :=
  demo_env_with (λ _, Raise (Exn OtherException (py "EOF marker not found")))
    Ok (λ _, None).

(** An index builder that fails on every text. *)
Definition no_embeddings_env : Env :=
  demo_env_with demo_extract
    (λ _, Raise (Exn OtherException (py "embedding model unavailable")))
    (λ _, None).


(** The model answers the notes prompt and fails on every other query. *)
Definition notes_only_env : Env :=
  {| FAISS := list str;
     split_text := λ _ _ text, [text];
     from_texts := Ok;
     llm_run := λ n vs k q,
       match q with
       | VStr p =>
           if bool_decide (p = notes_prompt) then Ok demo_notes_reply
           else Raise (Exn OtherException (py "429 quota exceeded"))
       | _ => Raise (Exn OtherException (py "429 quota exceeded"))
       end;
     uuid_gen := demo_uuid;
     secure_filename := λ name, name;
     extract_text := demo_extract;
     save_fault := λ _, None;
     remove_fault := λ _, None |}.

(** The model answers every query with text that has no line starting with
    [Q:]. *)
Definition prose_env : Env :=
  {| FAISS := list str;
     split_text := λ _ _ text, [text];
     from_texts := Ok;
     llm_run := λ n vs k q, Ok (py "1) What is an index?
   A: A search structure.
Question: why?");
     uuid_gen := demo_uuid;
     secure_filename := λ name, name;
     extract_text := demo_extract;
     save_fault := λ _, None;
     remove_fault := λ _, None |}.

(** Identifiers of one code point each, all different. *)
Definition serial_uuid_env : Env :=
  {| FAISS := list str;
     split_text := λ _ _ text, [text];
     from_texts := Ok;
     llm_run := demo_llm;
     uuid_gen := λ n, [N.of_nat n];
     secure_filename := λ name, name;
     extract_text := demo_extract;
     save_fault := λ _, None;
     remove_fault := λ _, None |}.

(** ** The parsers, as the claims describe them *)

(** The line of a reply once stripped and cleaned of its leading
    characters. *)
Definition clean_line (line : str) : str :=
  PyStr.lstrip notes_lstrip_chars (PyStr.strip line).

(** A cleaned line is kept when it is non-empty and longer than ten code
    points. *)
Definition kept (clean : str) : bool :=
  PyStr.truthy clean && bool_decide (10 < length clean).

(** The records that the claim's words describe, as question/answer pairs in
    the order in which they are completed: [q] and [a] are the question and
    the answer in progress, a line [Q:] closes the record in progress and
    opens the next, a line [A:] sets the answer, any other non-empty line
    extends a non-empty answer after one space, and a record counts only
    when its question and its answer are both non-empty. *)
Fixpoint spec_records (q a : str) (lines : list str) : list (str * str) :=
  let complete :=
    match q, a with
    | _ :: _, _ :: _ => [(q, a)]
    | _, _ => []
    end in
  match lines with
  | [] => complete
  | line :: rest =>
      let l := PyStr.strip line in
      if PyStr.startswith (py "Q:") l then
        complete ++ spec_records (PyStr.strip (drop 2 l)) [] rest
      else if PyStr.startswith (py "A:") l then
        spec_records q (PyStr.strip (drop 2 l)) rest
      else
        match l, a with
        | _ :: _, _ :: _ => spec_records q (a ++ py " " ++ l) rest
        | _, _ => spec_records q a rest
        end
  end.

(** The flashcards described by a reply: at most eight records. *)
Definition spec_flashcards (reply : str) : list (str * str) :=
  take 8 (spec_records [] [] (PyStr.split 10 (PyStr.strip reply))).

(** The identifier of a flashcard dictionary. *)
Definition card_id (card : value) : option str :=
  match card with
  | VDict items =>
      match dict_get (py "id") items with
      | Some (VStr id) => Some id
      | _ => None
      end
  | _ => None
  end.

(** ** Shapes of requests and responses *)

(** A file name has the extension [pdf] when the text after its last dot is
    [pdf] in any mix of upper and lower case. *)
Definition has_pdf_extension (name : str) : Prop :=
  ∃ stem ext,
    name = stem ++ [46%N] ++ ext ∧ (46%N ∉ ext)
    ∧ PyStr.lower ext = py "pdf".

(** A response whose body is a dictionary with the one key [error]. *)
Definition is_error (r : Response) : Prop :=
  ∃ msg, body r = VDict [(py "error", VStr msg)].

Definition is_flashcard (card : value) : Prop :=
  ∃ id q a, card = flashcard id q a.

Definition is_study_materials (v : value) : Prop :=
  ∃ summary notes cards,
    v = VDict [(py "summary", VStr summary);
               (py "notes", VList (VStr <$> notes));
               (py "flashcards", VList cards)]
    ∧ Forall is_flashcard cards.

(** The dictionary that [generate_study_materials] returns when it catches a
    failure. *)
Definition fallback_materials (id : str) : value :=
  VDict [(py "summary", VStr (py "Failed to generate summary."));
         (py "notes", VList [VStr (py "Failed to generate notes.")]);
         (py "flashcards",
          VList [flashcard id (py "Error occurred")
                   (py "Please try again.")])].

(** The parameters that the source gives to the libraries: the splitter's
    sizes, and [k] for the retrievals of the operation at hand. *)
Definition fixed_parameters (k : nat) (c : call) : Prop :=
  match c with
  | SplitText cs ov _ => cs = 1000 ∧ ov = 200
  | FromTexts _ => True
  | Retrieve k' _ => k' = k
  end.

Section Auxiliary.
Context {E : Env}.

(** ** States *)

(** The state after [n] more identifiers have been drawn. *)
Definition drawn (n : nat) (w : World E) : World E :=
  {| vectorStore := vectorStore w; log := log w;
     uuid_ctr := n + uuid_ctr w; fs := fs w; calls := calls w |}.

(** The state after one more library call. *)
Definition called (c : call) (w : World E) : World E :=
  {| vectorStore := vectorStore w; log := log w; uuid_ctr := uuid_ctr w;
     fs := fs w; calls := calls w ++ [c] |}.

(** The state after one more log entry. *)
Definition logged (lvl : level) (msg : str) (w : World E) : World E :=
  {| vectorStore := vectorStore w; log := log w ++ [(lvl, msg)];
     uuid_ctr := uuid_ctr w; fs := fs w; calls := calls w |}.

(** The records [recs] as flashcards whose identifiers are the [n0]-th
    identifier of the process and the following ones. *)
Definition labelled (n0 : nat) (recs : list (str * str)) : list value :=
  imap (λ i qa, flashcard (uuid_gen E (n0 + i)) qa.1 qa.2) recs.

(** The index built from the chunks of a text. *)
Definition index_of (text : str) : result (FAISS E) :=
  from_texts E
    (split_text E (chunk_size text_splitter) (chunk_overlap text_splitter)
       text).

(** ** The blocks of the upload handler *)

(** The path under which [process_pdf] saves the upload when it starts in
    state [w]. *)
Definition upload_path (w : World E) (file : FileStorage) : str :=
  path_join UPLOAD_FOLDER
    (uuid_gen E (uuid_ctr w) ++ py "_" ++ secure_filename E (filename file)).

(** The state once the upload is saved and the save is logged. *)
Definition saved (file : FileStorage) (w : World E) : World E :=
  {| vectorStore := vectorStore w;
     log := log w ++ [(INFO, py "File uploaded: " ++ upload_path w file)];
     uuid_ctr := S (uuid_ctr w);
     fs := <[upload_path w file := stream file]> (fs w);
     calls := calls w |}.

(** The inner [try ... except] block of [process_pdf]. *)
Definition extract_and_generate (filepath : str) : M Response :=
  try_except
    (logger INFO (py "Extracting text from PDF...");;
     text_content ← pdf_extract_text filepath;
     if negb (PyStr.truthy (PyStr.strip text_content))
     then mret (error_response
                  (py "No text could be extracted from the PDF") 400)
     else
       logger INFO (py "Generating study materials...");;
       study_materials ← generate_study_materials text_content;
       logger INFO (py "Study materials generated successfully");;
       mret {| status := 200; body := study_materials |})
    (λ e,
       logger ERROR (py "Error processing PDF: " ++ exn_str e);;
       mret (error_response (py "Failed to process PDF: " ++ exn_str e) 500)).

(** The [finally] block of [process_pdf]. *)
Definition clean_up (filepath : str) : M unit :=
  try_except
    (os_remove filepath;;
     logger INFO (py "Cleaned up file: " ++ filepath))
    (λ e,
       logger WARNING (py "Failed to clean up file " ++ filepath
                         ++ py ": " ++ exn_str e)).

(** ** Properties of computations *)

(** [m] relates the state it starts from to the state it ends in by [R],
    whether it returns or raises. *)
Definition preserves (R : relation (World E)) {A} (m : M A) : Prop :=
  ∀ w, R w (m w).1.

(** [m] never raises. *)
Definition no_raise {A} (m : M A) : Prop :=
  ∀ w, ∃ a, (m w).2 = Ok a.

(** Whatever [m] returns satisfies [Q]. *)
Definition returns {A} (Q : A → Prop) (m : M A) : Prop :=
  ∀ w w' a, m w = (w', Ok a) → Q a.

(** [m] ends in a state that satisfies [Q], whether it returns or raises. *)
Definition establishes (Q : World E → Prop) {A} (m : M A) : Prop :=
  ∀ w, Q (m w).1.

(** The outcome [out] of an operation in which a failure was caught: the
    operation returns [fallback], and the last entry of the log is the error
    [msg]. *)
Definition caught_as {A} (out : World E * result A) (msg : str)
    (fallback : A) : Prop :=
  out.2 = Ok fallback ∧ last (log out.1) = Some (ERROR, msg).

(** ** Relations between the state before and the state after *)

Definition same_fs : relation (World E) := λ w w', fs w' = fs w.

Definition calls_grow (P : call → Prop) : relation (World E) := λ w w',
  ∃ new, calls w' = calls w ++ new ∧ Forall P new.

Definition store_stays (v : FAISS E) : relation (World E) := λ w w',
  vectorStore w = Some v → vectorStore w' = Some v.

End Auxiliary.

(** ** What the generation operations return for an outcome of the model *)

(** The summary for the outcome of the model call of [generate_summary]. *)
Definition summary_of (outcome : result str) : str :=
  match outcome with
  | Ok reply => PyStr.strip reply
  | Raise _ => py "Failed to generate summary. Please try again."
  end.

(** The notes for the outcome of the model call of [generate_notes]. *)
Definition notes_of (outcome : result str) : list str :=
  match outcome with
  | Ok reply => parse_notes reply
  | Raise _ => [py "Failed to generate notes. Please try again."]
  end.

Section Outcomes.
Context {E : Env}.

(** The flashcards for the outcome of the model call of
    [generate_flashcards], when [n0] identifiers have been drawn before. *)
Definition flashcards_of (n0 : nat) (outcome : result str) : list value :=
  match outcome with
  | Ok reply =>
      take 8 (labelled n0
                (spec_records [] [] (PyStr.split 10 (PyStr.strip reply))))
  | Raise _ =>
      [flashcard (uuid_gen E n0) (py "Error generating flashcards")
         (py "Please try again with a different document.")]
  end.

(** The library calls of one run of [generate_study_materials] on a text
    whose index can be built. *)
Definition study_materials_calls (text : str) : list call :=
  [SplitText 1000 200 text; FromTexts (split_text E 1000 200 text);
   SplitText 1000 200 text; FromTexts (split_text E 1000 200 text);
   Retrieve 3 (VStr summary_prompt); Retrieve 4 (VStr notes_prompt);
   Retrieve 4 (VStr flashcards_prompt)].

(** The list that [query_response] returns when it catches a failure. *)
Definition fallback_answer (id : str) : value :=
  VList [VDict [(py "id", VStr id);
                (py "message", VStr (py "Something went wrong"))]].

(** What [query_response] returns for the message [m] in state [w]: the
    chain's inputs with [result] when there is an index, the chain accepts
    the message and the model answers, the fallback list otherwise. *)
Definition answer_of (w : World E) (m : value) : value :=
  match vectorStore w, chain_inputs m with
  | Some v, Ok (inputs, q) =>
      match llm_run E (length (calls w)) v 4 q with
      | Ok answer => VDict (dict_set (py "result") (VStr answer) inputs)
      | Raise _ => fallback_answer (uuid_gen E (uuid_ctr w))
      end
  | _, _ => fallback_answer (uuid_gen E (uuid_ctr w))
  end.

(** The state in which the inner block of [process_pdf] calls
    [generate_study_materials]. *)
Definition generating (file : FileStorage) (w : World E) : World E :=
  logged INFO (py "Generating study materials...")
    (logged INFO (py "Extracting text from PDF...") (saved file w)).

(** [m] raises no exception but those that satisfy [P]. *)
Definition raises_only (P : exn → Prop) {A} (m : M A) : Prop :=
  ∀ w w' e, m w = (w', Raise e) → P e.

End Outcomes.

(** * Lemmas *)

Example strip_ex : PyStr.strip (py "  Q: a b 	") = py "Q: a b".
Proof. reflexivity. Qed.

Example split_ex : PyStr.split 10 [65; 10; 10; 66]%N = [[65]; []; [66]]%N.
Proof. reflexivity. Qed.

Example rsplit1_ex :
  PyStr.rsplit1 46 (py "a.b.PDF") = [py "a.b"; py "PDF"].
Proof. reflexivity. Qed.

(** ** The reply parsers *)

(** *** Notes *)

Lemma foldl_notes_step (lines : list str) (acc : list str) :
  foldl notes_step acc lines = acc ++ filter (λ c, kept c) (clean_line <$> lines).
Proof.
  revert acc. induction lines as [|line lines IH]; intros acc; simpl.
  - by rewrite app_nil_r.
  - rewrite IH. unfold notes_step. fold (clean_line line).
    fold (kept (clean_line line)). rewrite filter_cons.
    destruct (kept (clean_line line)) eqn:Hk.
    + rewrite decide_True by done. by rewrite <- app_assoc.
    + rewrite decide_False; [done|]. by intros [].
Qed.

(** The loop of [generate_notes] is a map, a filter and a truncation: the
    notes are the kept cleaned lines, in the order of the reply, cut after
    the tenth. *)
Lemma parse_notes_filter (reply : str) :
  parse_notes reply
  = take 10 (filter (λ c, kept c)
               (clean_line <$> PyStr.split 10 (PyStr.strip reply))).
Proof. unfold parse_notes. by rewrite foldl_notes_step. Qed.

Lemma parse_notes_length (reply : str) : length (parse_notes reply) ≤ 10.
Proof. unfold parse_notes. rewrite length_take. lia. Qed.

(** *** Flashcards *)

Section Parsers.
Context {E : Env}.

Lemma drawn_0 (w : World E) : drawn 0 w = w.
Proof. by destruct w. Qed.

Lemma drawn_drawn (n m : nat) (w : World E) :
  drawn n (drawn m w) = drawn (n + m) w.
Proof. unfold drawn; simpl. f_equal. lia. Qed.

Lemma labelled_cons n0 qa recs :
  labelled n0 (qa :: recs)
  = flashcard (uuid_gen E n0) qa.1 qa.2 :: labelled (S n0) recs.
Proof.
  unfold labelled. rewrite imap_cons. rewrite Nat.add_0_r. f_equal.
  apply imap_ext. intros i x _. simpl. do 2 f_equal. lia.
Qed.

Lemma bind_assoc_run {A B C} (m : M A) (f : A → M B) (g : B → M C) w :
  ((m ≫= f) ≫= g) w = (m ≫= λ x, f x ≫= g) w.
Proof.
  unfold mbind, M_bind. by destruct (m w) as [w' [a|e]].
Qed.

Lemma bind_ret_run {A B} (a : A) (f : A → M B) w : (mret a ≫= f) w = f a w.
Proof. done. Qed.

Lemma bind_run {A B} (m : M A) (f : A → M B) w w' a :
  m w = (w', Ok a) → (m ≫= f) w = f a w'.
Proof. unfold mbind, M_bind. by intros ->. Qed.

Lemma fc_step_eq (st : fc_state) (line : str) :
  fc_step st line
  = if PyStr.startswith (py "Q:") (PyStr.strip line) then
      fc_flush st ≫= λ cards,
        mret {| flashcards := cards;
                current_question := PyStr.strip (drop 2 (PyStr.strip line));
                current_answer := [] |}
    else if PyStr.startswith (py "A:") (PyStr.strip line) then
      mret {| flashcards := flashcards st;
              current_question := current_question st;
              current_answer := PyStr.strip (drop 2 (PyStr.strip line)) |}
    else if PyStr.truthy (PyStr.strip line) && PyStr.truthy (current_answer st)
    then
      mret {| flashcards := flashcards st;
              current_question := current_question st;
              current_answer :=
                current_answer st ++ py " " ++ PyStr.strip line |}
    else mret st.
Proof. done. Qed.

(** The loop followed by the last [append], from any loop state. *)
Lemma for_each_fc_step (lines : list str) (st : fc_state) (w : World E) :
  (for_each fc_step st lines ≫= fc_flush) w
  = (drawn (length (spec_records (current_question st) (current_answer st)
                      lines)) w,
     Ok (flashcards st
           ++ labelled (uuid_ctr w)
                (spec_records (current_question st) (current_answer st)
                   lines))).
Proof.
  revert st w. induction lines as [|line lines IH]; intros st w.
  - destruct st as [cards q a]. cbn -[py].
    destruct q as [|c q], a as [|d a]; cbn -[py];
      rewrite ?drawn_0, ?app_nil_r; try done.
    unfold drawn; simpl. by rewrite Nat.add_0_r.
  - destruct st as [cards q a].
    cbn [spec_records current_question current_answer for_each flashcards].
    rewrite bind_assoc_run, fc_step_eq.
    cbn [current_question current_answer flashcards].
    destruct (PyStr.startswith (py "Q:") (PyStr.strip line)).
    + rewrite bind_assoc_run.
      destruct q as [|c q], a as [|d a];
        cbn [fc_flush current_question current_answer flashcards
             PyStr.truthy andb];
        try (rewrite !bind_ret_run; apply IH).
      erewrite bind_run by reflexivity.
      rewrite bind_ret_run, IH. cbn [flashcards current_question current_answer uuid_ctr].
      change ([(c :: q, d :: a)] ++ ?l) with ((c :: q, d :: a) :: l).
      rewrite labelled_cons, <- app_assoc. cbn [length app fst snd].
      f_equal. unfold drawn; simpl. f_equal. lia.
    + destruct (PyStr.startswith (py "A:") (PyStr.strip line)).
      * rewrite bind_ret_run. apply IH.
      * destruct (PyStr.strip line) as [|c l], a as [|d a];
          cbn [PyStr.truthy andb]; rewrite bind_ret_run; apply IH.
Qed.

Lemma parse_flashcards_run (reply : str) (w : World E) :
  let recs := spec_records [] [] (PyStr.split 10 (PyStr.strip reply)) in
  parse_flashcards reply w
  = (drawn (length recs) w, Ok (take 8 (labelled (uuid_ctr w) recs))).
Proof.
  intros recs. unfold parse_flashcards.
  rewrite <- bind_assoc_run.
  erewrite bind_run by apply for_each_fc_step.
  done.
Qed.

Lemma generate_flashcards_success text (w : World E) vs reply :
  vectorStore w = Some vs →
  llm_run E (length (calls w)) vs 4 (VStr flashcards_prompt) = Ok reply →
  let recs := spec_records [] [] (PyStr.split 10 (PyStr.strip reply)) in
  generate_flashcards text w
  = (drawn (length recs) (called (Retrieve 4 (VStr flashcards_prompt)) w),
     Ok (take 8 (labelled (uuid_ctr w) recs))).
Proof.
  intros Hvs Hllm recs.
  unfold generate_flashcards, try_except.
  erewrite bind_run; last by (unfold get_vectorStore; rewrite Hvs).
  erewrite bind_run;
    last by (unfold qa_chain_run, mbind, M_bind, record_call, lift_result;
             rewrite Hllm).
  by rewrite parse_flashcards_run.
Qed.

Lemma generate_notes_success text (w : World E) vs reply :
  vectorStore w = Some vs →
  llm_run E (length (calls w)) vs 4 (VStr notes_prompt) = Ok reply →
  generate_notes text w
  = (called (Retrieve 4 (VStr notes_prompt)) w, Ok (parse_notes reply)).
Proof.
  intros Hvs Hllm.
  unfold generate_notes, try_except.
  erewrite bind_run; last by (unfold get_vectorStore; rewrite Hvs).
  erewrite bind_run;
    last by (unfold qa_chain_run, mbind, M_bind, record_call, lift_result;
             rewrite Hllm).
  done.
Qed.

(** Every record that the claim's words describe has a question and an
    answer. *)
Lemma spec_records_nonempty (lines : list str) (q a : str) :
  Forall (λ qa, qa.1 ≠ [] ∧ qa.2 ≠ []) (spec_records q a lines).
Proof.
  revert q a. induction lines as [|line lines IH]; intros q a;
    cbn [spec_records].
  - destruct q, a; repeat constructor; done.
  - destruct (PyStr.startswith (py "Q:") (PyStr.strip line)).
    + apply Forall_app; split; [|apply IH].
      destruct q, a; repeat constructor; done.
    + destruct (PyStr.startswith (py "A:") (PyStr.strip line)); [apply IH|].
      destruct (PyStr.strip line), a; apply IH.
Qed.

Lemma labelled_length n0 recs : length (labelled n0 recs) = length recs.
Proof. unfold labelled. by rewrite length_imap. Qed.

Lemma labelled_lookup n0 recs i qa :
  recs !! i = Some qa →
  labelled n0 recs !! i = Some (flashcard (uuid_gen E (n0 + i)) qa.1 qa.2).
Proof. intros H. unfold labelled. by rewrite list_lookup_imap, H. Qed.

Lemma labelled_Forall2 n0 recs :
  Forall2 (λ card qa, ∃ id, card = flashcard id qa.1 qa.2)
    (labelled n0 recs) recs.
Proof.
  revert n0. induction recs as [|qa recs IH]; intros n0.
  - constructor.
  - rewrite labelled_cons. constructor; eauto.
Qed.

Lemma card_id_flashcard id q a : card_id (flashcard id q a) = Some id.
Proof. reflexivity. Qed.

Lemma labelled_ids n0 recs :
  card_id <$> labelled n0 recs
  = (λ n, Some (uuid_gen E n)) <$> seq n0 (length recs).
Proof.
  revert n0. induction recs as [|qa recs IH]; intros n0; [done|].
  rewrite labelled_cons. cbn [fmap list_fmap length seq].
  rewrite card_id_flashcard. f_equal. apply IH.
Qed.

End Parsers.

(** ** Reasoning about computations *)

Section Rules.
Context {E : Env}.

Section Preserves.
Context (R : relation (World E)) `{!PreOrder R}.

Lemma preserves_ret {A} (a : A) : preserves R (mret a).
Proof. intros w. simpl. reflexivity. Qed.

Lemma preserves_raise {A} (e : exn) : preserves R (raise (A:=A) e).
Proof. intros w. simpl. reflexivity. Qed.

Lemma preserves_lift_result {A} (r : result A) : preserves R (lift_result r).
Proof. intros w. simpl. reflexivity. Qed.

Lemma preserves_bind {A B} (m : M A) (f : A → M B) :
  preserves R m → (∀ a, preserves R (f a)) → preserves R (m ≫= f).
Proof.
  intros Hm Hf w. unfold mbind, M_bind. specialize (Hm w).
  destruct (m w) as [w' [a|e]]; simpl in *; [|done].
  etrans; [done|]. apply Hf.
Qed.

Lemma preserves_try_except {A} (body : M A) (handler : exn → M A) :
  preserves R body → (∀ e, preserves R (handler e)) →
  preserves R (try_except body handler).
Proof.
  intros Hb Hh w. unfold try_except. specialize (Hb w).
  destruct (body w) as [w' [a|e]]; simpl in *; [done|].
  etrans; [done|]. apply Hh.
Qed.

Lemma preserves_try_finally {A} (body : M A) (cleanup : M unit) :
  preserves R body → preserves R cleanup →
  preserves R (try_finally body cleanup).
Proof.
  intros Hb Hc w. unfold try_finally. specialize (Hb w).
  destruct (body w) as [w' r]; simpl in *. specialize (Hc w').
  destruct (cleanup w') as [w'' [[]|e]]; simpl in *; by etrans.
Qed.

Lemma preserves_for_each {A S} (body : S → A → M S) (l : list A) (s : S) :
  (∀ s x, preserves R (body s x)) → preserves R (for_each body s l).
Proof.
  intros Hb. revert s. induction l as [|x l IH]; intros s; simpl.
  - apply preserves_ret.
  - apply preserves_bind; [apply Hb | apply IH].
Qed.

End Preserves.

Lemma no_raise_ret {A} (a : A) : no_raise (mret a).
Proof. intros w. by exists a. Qed.

Lemma no_raise_bind {A B} (m : M A) (f : A → M B) :
  no_raise m → (∀ a, no_raise (f a)) → no_raise (m ≫= f).
Proof.
  intros Hm Hf w. unfold mbind, M_bind. destruct (Hm w) as [a Ha].
  destruct (m w) as [w' r]; simpl in *; subst r. apply Hf.
Qed.

Lemma no_raise_try_except {A} (body : M A) (handler : exn → M A) :
  (∀ e, no_raise (handler e)) → no_raise (try_except body handler).
Proof.
  intros Hh w. unfold try_except.
  destruct (body w) as [w' [a|e]]; [by exists a | apply Hh].
Qed.

Lemma no_raise_try_finally {A} (body : M A) (cleanup : M unit) :
  no_raise body → no_raise cleanup → no_raise (try_finally body cleanup).
Proof.
  intros Hb Hc w. unfold try_finally. destruct (Hb w) as [a Ha].
  destruct (body w) as [w' r]; simpl in *; subst r.
  destruct (Hc w') as [u Hu].
  destruct (cleanup w') as [w'' r]; simpl in *; subst r. by exists a.
Qed.

Lemma no_raise_logger lvl msg : no_raise (logger lvl msg).
Proof. intros w. by exists (). Qed.

Lemma no_raise_uuid4 : no_raise uuid4.
Proof. intros w. by eexists. Qed.

Lemma returns_ret {A} (Q : A → Prop) (a : A) : Q a → returns Q (mret a).
Proof. intros HQ w w' a' [= _ <-]. done. Qed.

Lemma returns_bind {A B} (P : A → Prop) (Q : B → Prop) (m : M A)
    (f : A → M B) :
  returns P m → (∀ a, P a → returns Q (f a)) → returns Q (m ≫= f).
Proof.
  intros Hm Hf w w' b. unfold mbind, M_bind.
  destruct (m w) as [w1 [a|e]] eqn:Hw; [|done].
  intros Hb. eapply Hf; [|done]. by eapply Hm.
Qed.

Lemma returns_try_except {A} (Q : A → Prop) (body : M A)
    (handler : exn → M A) :
  returns Q body → (∀ e, returns Q (handler e)) →
  returns Q (try_except body handler).
Proof.
  intros Hb Hh w w' a. unfold try_except.
  destruct (body w) as [w1 [a1|e]] eqn:Hw.
  - intros [= <- <-]. by eapply Hb.
  - apply Hh.
Qed.

Lemma returns_True {A} (m : M A) : returns (λ _, True) m.
Proof. by intros w w' a _. Qed.

End Rules.

Create HintDb frame discriminated.
#[export] Hint Resolve preserves_ret preserves_raise preserves_lift_result
  preserves_bind preserves_try_except preserves_try_finally
  preserves_for_each : frame.
#[export] Hint Resolve no_raise_ret no_raise_bind no_raise_try_except
  no_raise_try_finally no_raise_logger no_raise_uuid4 : frame.
#[export] Hint Extern 1 (PreOrder _) => apply _ : frame.

(** Splits the conditionals and matches of a computation before the rules
    are tried. *)
Ltac frame :=
  repeat first
    [ progress eauto with frame
    | match goal with
      | |- preserves _ (if ?b then _ else _) => destruct b
      | |- preserves _ (match ?x with _ => _ end) => destruct x
      | |- preserves _ (_ ≫= _) => apply preserves_bind; [apply _| |intros ?]
      | |- preserves _ (try_except _ _) =>
          apply preserves_try_except; [apply _| |intros ?]
      | |- preserves _ (try_finally _ _) =>
          apply preserves_try_finally; [apply _| |]
      end ].

Section Frames.
Context {E : Env}.

Lemma preserves_bind_returns (R : relation (World E)) `{!PreOrder R} {A B}
    (P : A → Prop) (m : M A) (f : A → M B) :
  preserves R m → returns P m → (∀ a, P a → preserves R (f a)) →
  preserves R (m ≫= f).
Proof.
  intros Hm HP Hf w. unfold mbind, M_bind. specialize (Hm w).
  destruct (m w) as [w' [a|e]] eqn:Hw; simpl in *; [|done].
  etrans; [done|]. apply Hf. by eapply HP.
Qed.

(** *** The upload directory is left as it is *)

#[export] Instance same_fs_preorder : PreOrder same_fs.
Proof.
  split; [by intros w; unfold same_fs|].
  intros w1 w2 w3 H12 H23. unfold same_fs in *.
  congruence.
Qed.

(** *** The library calls made, and their parameters *)

#[export] Instance calls_grow_preorder P : PreOrder (calls_grow P).
Proof.
  split.
  - intros w. exists []. by rewrite app_nil_r.
  - intros w1 w2 w3 (n1 & H1 & HP1) (n2 & H2 & HP2). exists (n1 ++ n2).
    split; [by rewrite H2, H1, app_assoc | by apply Forall_app].
Qed.

(** *** The index, once installed, stays *)

#[export] Instance store_stays_preorder v : PreOrder (store_stays v).
Proof.
  split; [by intros w ?|]. intros w1 w2 w3 H12 H23 H. by apply H23, H12.
Qed.

(** Unfolds a primitive effect and settles what it does to one field. *)
Ltac prim :=
  intros w;
  cbv [logger uuid4 record_call get_vectorStore set_vectorStore lift_result
       file_save os_remove same_fs store_stays];
  repeat case_match; simpl; try done; try congruence.

Ltac grown := first [ by (exists []; rewrite app_nil_r) | by eexists [_] ].

Lemma logger_same_fs lvl msg : preserves same_fs (logger lvl msg).
Proof. prim. Qed.
Lemma uuid4_same_fs : preserves same_fs uuid4.
Proof. prim. Qed.
Lemma record_call_same_fs c : preserves same_fs (record_call c).
Proof. prim. Qed.
Lemma get_vectorStore_same_fs : preserves same_fs get_vectorStore.
Proof. prim. Qed.
Lemma set_vectorStore_same_fs vs : preserves same_fs (set_vectorStore vs).
Proof. prim. Qed.
Lemma qa_chain_run_same_fs vs k q : preserves same_fs (qa_chain_run vs k q).
Proof.
  intros w. unfold qa_chain_run, mbind, M_bind, record_call, lift_result.
  done.
Qed.

Lemma logger_store_stays v lvl msg :
  preserves (store_stays v) (logger lvl msg).
Proof. prim. Qed.
Lemma uuid4_store_stays v : preserves (store_stays v) uuid4.
Proof. prim. Qed.
Lemma record_call_store_stays v c : preserves (store_stays v) (record_call c).
Proof. prim. Qed.
Lemma get_vectorStore_store_stays v :
  preserves (store_stays v) get_vectorStore.
Proof. prim. Qed.
Lemma set_vectorStore_store_stays v : preserves (store_stays v) (set_vectorStore v).
Proof. prim. Qed.
Lemma qa_chain_run_store_stays v vs k q :
  preserves (store_stays v) (qa_chain_run vs k q).
Proof.
  intros w. unfold qa_chain_run, mbind, M_bind, record_call, lift_result.
  by unfold store_stays.
Qed.

Lemma logger_calls_grow P lvl msg : preserves (calls_grow P) (logger lvl msg).
Proof. intros w. simpl. grown. Qed.
Lemma uuid4_calls_grow P : preserves (calls_grow P) uuid4.
Proof. intros w. simpl. grown. Qed.
Lemma get_vectorStore_calls_grow P : preserves (calls_grow P) get_vectorStore.
Proof. intros w. unfold get_vectorStore. case_match; simpl; grown. Qed.
Lemma set_vectorStore_calls_grow P vs :
  preserves (calls_grow P) (set_vectorStore vs).
Proof. intros w. simpl. grown. Qed.
Lemma record_call_calls_grow (P : call → Prop) c :
  P c → preserves (calls_grow P) (record_call c).
Proof. intros HP w. exists [c]. split; [done|]. by constructor. Qed.
Lemma qa_chain_run_calls_grow (P : call → Prop) vs k q :
  P (Retrieve k q) → preserves (calls_grow P) (qa_chain_run vs k q).
Proof.
  intros HP w. unfold qa_chain_run, mbind, M_bind, record_call, lift_result.
  exists [Retrieve k q]. split; [done|]. by constructor.
Qed.
Lemma qa_chain_call_calls (vs : FAISS E) k text (w : World E) :
  calls (qa_chain_call vs k text w).1 = calls w ++ [Retrieve k text].
Proof.
  unfold qa_chain_call, mbind, M_bind, record_call, lift_result.
  cbn -[py]. destruct (chain_inputs text) as [[inputs q]|e]; [|done].
  by destruct (llm_run E _ vs k q).
Qed.
Lemma qa_chain_call_calls_grow (P : call → Prop) vs k text :
  P (Retrieve k text) → preserves (calls_grow P) (qa_chain_call vs k text).
Proof.
  intros HP w. exists [Retrieve k text].
  split; [apply qa_chain_call_calls | by constructor].
Qed.


End Frames.

#[export] Hint Resolve logger_same_fs uuid4_same_fs record_call_same_fs
  get_vectorStore_same_fs set_vectorStore_same_fs qa_chain_run_same_fs
  logger_store_stays uuid4_store_stays record_call_store_stays
  get_vectorStore_store_stays set_vectorStore_store_stays
  qa_chain_run_store_stays
  logger_calls_grow uuid4_calls_grow get_vectorStore_calls_grow
  set_vectorStore_calls_grow record_call_calls_grow qa_chain_run_calls_grow
  qa_chain_call_calls_grow
  : frame.

Section Operations.
Context {E : Env}.

Lemma fc_flush_preserves (R : relation (World E)) `{!PreOrder R} st :
  preserves R uuid4 → preserves R (fc_flush st).
Proof. intros Hu. unfold fc_flush. frame. Qed.

Lemma parse_flashcards_preserves (R : relation (World E)) `{!PreOrder R}
    reply :
  preserves R uuid4 → preserves R (parse_flashcards reply).
Proof.
  intros Hu. unfold parse_flashcards.
  apply preserves_bind; [done| |].
  - apply preserves_for_each; [done|]. intros st line.
    rewrite fc_step_eq. pose proof (fc_flush_preserves R st Hu). frame.
  - intros st. pose proof (fc_flush_preserves R st Hu). frame.
Qed.

Lemma create_vector_store_same_fs text :
  preserves same_fs (create_vector_store text).
Proof.
  unfold create_vector_store, splitter_split_text, FAISS_from_texts. frame.
Qed.

Lemma generate_summary_same_fs text :
  preserves same_fs (generate_summary text).
Proof.
  unfold generate_summary. pose proof (create_vector_store_same_fs text).
  frame.
Qed.

Lemma generate_notes_same_fs text : preserves same_fs (generate_notes text).
Proof. unfold generate_notes. frame. Qed.

Lemma generate_flashcards_same_fs text :
  preserves same_fs (generate_flashcards text).
Proof.
  unfold generate_flashcards.
  pose proof (λ r, parse_flashcards_preserves same_fs r uuid4_same_fs).
  frame.
Qed.

Lemma generate_study_materials_same_fs text :
  preserves same_fs (generate_study_materials text).
Proof.
  unfold generate_study_materials.
  pose proof (create_vector_store_same_fs text).
  pose proof (generate_summary_same_fs text).
  pose proof (generate_notes_same_fs text).
  pose proof (generate_flashcards_same_fs text).
  frame.
Qed.

(** *** Library calls *)

Lemma create_vector_store_calls k text :
  preserves (calls_grow (fixed_parameters k)) (create_vector_store text).
Proof.
  unfold create_vector_store, splitter_split_text, FAISS_from_texts.
  assert (fixed_parameters k
            (SplitText (chunk_size text_splitter)
               (chunk_overlap text_splitter) text)) by done.
  assert (∀ texts, fixed_parameters k (FromTexts texts)) by done.
  frame.
Qed.

Lemma generate_summary_calls text :
  preserves (calls_grow (fixed_parameters 3)) (generate_summary text).
Proof.
  unfold generate_summary. pose proof (create_vector_store_calls 3 text).
  assert (fixed_parameters 3 (Retrieve 3 (VStr summary_prompt))) by done.
  frame.
Qed.

Lemma generate_notes_calls text :
  preserves (calls_grow (fixed_parameters 4)) (generate_notes text).
Proof.
  unfold generate_notes.
  assert (fixed_parameters 4 (Retrieve 4 (VStr notes_prompt))) by done.
  frame.
Qed.

Lemma generate_flashcards_calls text :
  preserves (calls_grow (fixed_parameters 4)) (generate_flashcards text).
Proof.
  unfold generate_flashcards.
  assert (fixed_parameters 4 (Retrieve 4 (VStr flashcards_prompt))) by done.
  pose proof (λ r, parse_flashcards_preserves (calls_grow (fixed_parameters 4))
                     r (uuid4_calls_grow _)).
  frame.
Qed.

Lemma query_response_calls q :
  preserves (calls_grow (fixed_parameters 4)) (query_response q).
Proof.
  unfold query_response.
  assert (fixed_parameters 4 (Retrieve 4 q)) by done.
  frame.
Qed.

(** *** The index *)

Lemma create_vector_store_run text (w : World E) :
  ∃ w', create_vector_store text w
        = (w', index_of text)
        ∧ vectorStore w' = match index_of text with
                           | Ok v => Some v
                           | Raise _ => vectorStore w
                           end
        ∧ fs w' = fs w ∧ uuid_ctr w' = uuid_ctr w
        ∧ calls w'
          = calls w ++ [SplitText 1000 200 text;
                        FromTexts (split_text E 1000 200 text)]
        ∧ ∃ new, log w' = log w ++ new
                 ∧ ∀ e, index_of text = Raise e →
                        last new
                        = Some (ERROR,
                                py "Error creating vector store: "
                                  ++ exn_str e).
Proof.
  unfold create_vector_store, try_except, splitter_split_text,
    FAISS_from_texts, mbind, M_bind, record_call, logger, lift_result,
    set_vectorStore, raise, index_of.
  cbn -[py pretty].
  destruct (from_texts E _) as [v|e]; cbn -[py pretty];
    (eexists; split; [reflexivity|]); cbn -[py pretty];
    rewrite <- !app_assoc; repeat split; eauto.
  - eexists [_; _]. split; [done|]. by intros e [=].
  - eexists [_; _]. split; [done|]. by intros e' [= ->].
Qed.

Lemma create_vector_store_store_stays text v :
  index_of text = Ok v →
  preserves (store_stays v) (create_vector_store text).
Proof.
  intros Hv w Hw.
  destruct (create_vector_store_run text w) as (w' & -> & Hs & _).
  simpl. by rewrite Hs, Hv.
Qed.

Lemma generate_summary_store_stays text v :
  index_of text = Ok v → preserves (store_stays v) (generate_summary text).
Proof.
  intros Hv. unfold generate_summary.
  pose proof (create_vector_store_store_stays text v Hv). frame.
Qed.

Lemma generate_notes_store_stays text v :
  preserves (store_stays v) (generate_notes text).
Proof. unfold generate_notes. frame. Qed.

Lemma generate_flashcards_store_stays text v :
  preserves (store_stays v) (generate_flashcards text).
Proof.
  unfold generate_flashcards.
  pose proof (λ r, parse_flashcards_preserves (store_stays v) r
                     (uuid4_store_stays v)).
  frame.
Qed.

(** *** No operation of the service raises *)

Lemma generate_summary_no_raise text : no_raise (generate_summary text).
Proof. unfold generate_summary. eauto 10 with frame. Qed.

Lemma generate_notes_no_raise text : no_raise (generate_notes text).
Proof. unfold generate_notes. eauto 10 with frame. Qed.

Lemma generate_flashcards_no_raise text :
  no_raise (generate_flashcards text).
Proof. unfold generate_flashcards. eauto 10 with frame. Qed.

Lemma generate_study_materials_no_raise text :
  no_raise (generate_study_materials text).
Proof. unfold generate_study_materials. eauto 10 with frame. Qed.

Lemma query_response_no_raise q : no_raise (query_response q).
Proof. unfold query_response. eauto 10 with frame. Qed.

(** *** The shape of the results *)

Lemma labelled_is_flashcard n0 recs : Forall is_flashcard (labelled n0 recs).
Proof.
  apply Forall_forall. intros card Hc.
  apply list_elem_of_lookup in Hc as [i Hi].
  unfold labelled in Hi. rewrite list_lookup_imap in Hi.
  destruct (recs !! i) as [qa|]; simplify_eq/=. by repeat eexists.
Qed.

Lemma parse_flashcards_returns reply :
  returns (Forall is_flashcard) (parse_flashcards reply).
Proof.
  intros w w' cards. rewrite parse_flashcards_run. intros [= _ <-].
  apply Forall_take, labelled_is_flashcard.
Qed.

Lemma generate_flashcards_returns text :
  returns (Forall is_flashcard) (generate_flashcards text).
Proof.
  unfold generate_flashcards. apply returns_try_except.
  - eapply returns_bind; [apply returns_True|]. intros vs _.
    eapply returns_bind; [apply returns_True|]. intros reply _.
    apply parse_flashcards_returns.
  - intros e. eapply returns_bind; [apply returns_True|]. intros _ _.
    eapply returns_bind; [apply returns_True|]. intros id _.
    apply returns_ret. repeat constructor. by repeat eexists.
Qed.

Lemma generate_study_materials_returns text :
  returns is_study_materials (generate_study_materials text).
Proof.
  unfold generate_study_materials. apply returns_try_except.
  - eapply returns_bind; [apply returns_True|]. intros _ _.
    eapply returns_bind; [apply returns_True|]. intros vs _.
    eapply returns_bind; [apply returns_True|]. intros summary _.
    eapply returns_bind; [apply returns_True|]. intros notes _.
    eapply returns_bind; [apply generate_flashcards_returns|].
    intros cards Hcards.
    eapply returns_bind; [apply returns_True|]. intros _ _.
    apply returns_ret. by exists summary, notes, cards.
  - intros e. eapply returns_bind; [apply returns_True|]. intros _ _.
    eapply returns_bind; [apply returns_True|]. intros id _.
    apply returns_ret.
    exists (py "Failed to generate summary."),
      [py "Failed to generate notes."],
      [flashcard id (py "Error occurred") (py "Please try again.")].
    split; [done|]. repeat constructor. by repeat eexists.
Qed.

End Operations.

(** ** The upload handler, block by block *)

Section Handler.
Context {E : Env}.

Lemma extract_and_generate_no_raise path : no_raise (extract_and_generate path).
Proof. unfold extract_and_generate. eauto 10 with frame. Qed.

Lemma clean_up_no_raise path : no_raise (clean_up path).
Proof. unfold clean_up. eauto 10 with frame. Qed.



(** A part that [request.files] shows comes from a form that was read. *)
Lemma files_get_form (req : Request) name file :
  files_get name (files req) = Some file → is_Some (form req).
Proof. unfold files. by destruct (form req). Qed.

Lemma request_files_ok (req : Request) (w : World E) :
  (content_length req ≤ MAX_CONTENT_LENGTH)%N →
  is_Some (form req) →
  request_files req w = (w, Ok (files req)).
Proof.
  intros Hlen [parts Hform]. unfold request_files, files.
  rewrite bool_decide_false by lia. by rewrite Hform.
Qed.

(** A request that passes the checks and whose upload is saved goes on with
    the two nested blocks, from the state [saved]. *)
Lemma process_pdf_saved (req : Request) (w : World E) (file : FileStorage) :
  (content_length req ≤ MAX_CONTENT_LENGTH)%N →
  files_get (py "pdf") (files req) = Some file →
  filename file ≠ [] →
  allowed_file (filename file) = true →
  save_fault E (upload_path w file) = None →
  process_pdf req w
  = try_finally (extract_and_generate (upload_path w file))
      (clean_up (upload_path w file)) (saved file w).
Proof.
  intros Hlen Hfile Hname Hallowed Hsave.
  unfold process_pdf. unfold try_except at 1.
  erewrite bind_run
    by (apply request_files_ok; [done | by eapply files_get_form]).
  rewrite Hfile, bool_decide_false, Hallowed by done. cbn [negb].
  erewrite bind_run by reflexivity.
  erewrite bind_run;
    last by (unfold file_save;
             change (path_join _ _) with (upload_path w file);
             rewrite Hsave).
  erewrite bind_run by reflexivity.
  change (try_finally _ _) with
    (try_finally (extract_and_generate (upload_path w file))
       (clean_up (upload_path w file))).
  cbn [log vectorStore uuid_ctr fs calls].
  change (Build_World _ _ _ _ _ _) with (saved file w).
  destruct (no_raise_try_finally _ _
              (extract_and_generate_no_raise (upload_path w file))
              (clean_up_no_raise (upload_path w file)) (saved file w))
    as [r Hr].
  destruct (try_finally _ _ (saved file w)) as [w' res]; simpl in Hr.
  by subst res.
Qed.

Lemma try_finally_run {A} (body : M A) (cleanup : M unit) w w1 w2 r :
  body w = (w1, r) → cleanup w1 = (w2, Ok ()) →
  try_finally body cleanup w = (w2, r).
Proof. unfold try_finally. by intros -> ->. Qed.

(** The [finally] block on a file that is there: either the file is removed,
    or the removal fails, a warning is logged and the file stays. *)
Lemma clean_up_run path (w : World E) content :
  fs w !! path = Some content →
  clean_up path w
  = match remove_fault E path with
    | None =>
        ({| vectorStore := vectorStore w;
            log := log w ++ [(INFO, py "Cleaned up file: " ++ path)];
            uuid_ctr := uuid_ctr w; fs := delete path (fs w);
            calls := calls w |}, Ok ())
    | Some e =>
        (logged WARNING (py "Failed to clean up file " ++ path
                           ++ py ": " ++ exn_str e) w, Ok ())
    end.
Proof.
  intros Hfile.
  unfold clean_up, try_except, mbind, M_bind, os_remove.
  rewrite Hfile. by destruct (remove_fault E path).
Qed.

(** The inner block when the extractor fails. *)
Lemma extract_and_generate_extract_fails path (w : World E) content e :
  fs w !! path = Some content →
  extract_text E content = Raise e →
  extract_and_generate path w
  = (logged ERROR (py "Error processing PDF: " ++ exn_str e)
       (logged INFO (py "Extracting text from PDF...") w),
     Ok (error_response (py "Failed to process PDF: " ++ exn_str e) 500)).
Proof.
  intros Hfile Hext.
  unfold extract_and_generate, try_except, mbind, M_bind, pdf_extract_text.
  cbn -[py]. by rewrite Hfile, Hext.
Qed.

(** The inner block when the extracted text is blank. *)
Lemma extract_and_generate_blank path (w : World E) content text :
  fs w !! path = Some content →
  extract_text E content = Ok text →
  PyStr.strip text = [] →
  extract_and_generate path w
  = (logged INFO (py "Extracting text from PDF...") w,
     Ok (error_response (py "No text could be extracted from the PDF") 400)).
Proof.
  intros Hfile Hext Hblank.
  unfold extract_and_generate, try_except, mbind, M_bind, pdf_extract_text.
  cbn -[py]. by rewrite Hfile, Hext, Hblank.
Qed.

(** The inner block when there is text: the response carries what
    [generate_study_materials] returns. *)
Lemma extract_and_generate_text path (w : World E) content text :
  fs w !! path = Some content →
  extract_text E content = Ok text →
  PyStr.strip text ≠ [] →
  ∃ w' materials,
    generate_study_materials text
      (logged INFO (py "Generating study materials...")
         (logged INFO (py "Extracting text from PDF...") w))
    = (w', Ok materials)
    ∧ extract_and_generate path w
      = (logged INFO (py "Study materials generated successfully") w',
         Ok {| status := 200; body := materials |}).
Proof.
  intros Hfile Hext Htext.
  set (w1 := logged INFO (py "Generating study materials...")
               (logged INFO (py "Extracting text from PDF...") w)).
  destruct (generate_study_materials_no_raise text w1) as [materials Hm].
  destruct (generate_study_materials text w1) as [w' r] eqn:Hgen.
  simpl in Hm. subst r. exists w', materials. split; [done|].
  unfold extract_and_generate, try_except.
  erewrite bind_run by reflexivity.
  erewrite bind_run; last by (unfold pdf_extract_text; cbn -[py];
                              rewrite Hfile, Hext).
  destruct (PyStr.strip text) eqn:Hs; [done|]. cbn [PyStr.truthy negb].
  erewrite bind_run by reflexivity.
  erewrite bind_run by exact Hgen.
  done.
Qed.

Lemma saved_lookup (file : FileStorage) (w : World E) :
  fs (saved file w) !! upload_path w file = Some (stream file).
Proof. unfold saved; simpl. apply lookup_insert_eq. Qed.

End Handler.

(** ** File names *)

Lemma char_in_elem_of (chars : str) (c : N) :
  PyStr.char_in chars c = true ↔ c ∈ chars.
Proof.
  unfold PyStr.char_in. induction chars as [|d chars IH]; simpl.
  - split; [done | by intros ?%elem_of_nil].
  - rewrite orb_true_iff, IH, elem_of_cons, N.eqb_eq. done.
Qed.

Lemma rsplit1_no_sep (sep : N) (s : str) :
  sep ∉ s → PyStr.rsplit1 sep s = [s].
Proof.
  induction s as [|c s IH]; [done|].
  intros [Hc Hs]%not_elem_of_cons. simpl. rewrite (IH Hs).
  destruct (N.eqb_spec c sep); [by subst | done].
Qed.

Lemma rsplit1_last (sep : N) (stem ext : str) :
  sep ∉ ext → PyStr.rsplit1 sep (stem ++ sep :: ext) = [stem; ext].
Proof.
  intros Hext. induction stem as [|c stem IH]; simpl.
  - rewrite (rsplit1_no_sep _ _ Hext), N.eqb_refl. by destruct ext.
  - by rewrite IH.
Qed.

Lemma last_sep (sep : N) (s : str) :
  sep ∈ s → ∃ stem ext, s = stem ++ sep :: ext ∧ (sep ∉ ext).
Proof.
  induction s as [|c s IH]; [by intros ?%elem_of_nil|].
  intros Hin. destruct (decide (sep ∈ s)) as [Hs|Hs].
  - destruct (IH Hs) as (stem & ext & -> & Hext). by exists (c :: stem), ext.
  - apply elem_of_cons in Hin as [->|?]; [|done]. by exists [], s.
Qed.

(** [allowed_file] accepts exactly the names with the extension [pdf]. *)
Lemma allowed_file_spec (name : str) :
  allowed_file name = true ↔ has_pdf_extension name.
Proof.
  unfold allowed_file, has_pdf_extension. split.
  - intros [Hdot Hext]%andb_true_iff.
    apply char_in_elem_of, last_sep in Hdot as (stem & ext & -> & Hno).
    rewrite (rsplit1_last _ _ _ Hno) in Hext. simpl in Hext.
    apply bool_decide_eq_true in Hext.
    apply elem_of_singleton in Hext. by exists stem, ext.
  - intros (stem & ext & -> & Hno & Hlow).
    apply andb_true_iff. split.
    + apply char_in_elem_of. set_solver.
    + change (stem ++ [46%N] ++ ext) with (stem ++ 46%N :: ext).
      rewrite (rsplit1_last _ _ _ Hno). simpl.
      apply bool_decide_eq_true. rewrite Hlow. set_solver.
Qed.

Example allowed_file_upper : allowed_file (py "notes.PDF") = true.
Proof. by vm_compute. Qed.

Example allowed_file_no_dot : allowed_file (py "pdf") = false.
Proof. by vm_compute. Qed.

Example allowed_file_other : allowed_file (py "a.pdf.txt") = false.
Proof. by vm_compute. Qed.

Section StatusCodes.
Context {E : Env}.

Lemma process_pdf_too_large (req : Request) (w : World E) :
  (MAX_CONTENT_LENGTH < content_length req)%N →
  dispatch process_pdf req w
  = (w, error_response (py "File too large. Maximum size is 4MB") 413).
Proof.
  intros Hlen.
  unfold dispatch, process_pdf, try_except, mbind, M_bind, request_files.
  by rewrite bool_decide_true.
Qed.

(** A form that the framework refuses is answered like an oversized
    body. *)
Lemma process_pdf_form_refused (req : Request) (w : World E) :
  form req = None →
  dispatch process_pdf req w
  = (w, error_response (py "File too large. Maximum size is 4MB") 413).
Proof.
  intros Hform.
  unfold dispatch, process_pdf, try_except, mbind, M_bind, request_files.
  rewrite Hform. by case_bool_decide.
Qed.

Lemma process_pdf_no_file (req : Request) (w : World E) :
  (content_length req ≤ MAX_CONTENT_LENGTH)%N →
  is_Some (form req) →
  files_get (py "pdf") (files req) = None →
  dispatch process_pdf req w
  = (w, error_response (py "No file provided") 400).
Proof.
  intros Hlen Hform Hfile. unfold dispatch, process_pdf, try_except.
  erewrite bind_run by (by apply request_files_ok).
  by rewrite Hfile.
Qed.

Lemma process_pdf_no_name (req : Request) (w : World E) file :
  (content_length req ≤ MAX_CONTENT_LENGTH)%N →
  files_get (py "pdf") (files req) = Some file →
  filename file = [] →
  dispatch process_pdf req w
  = (w, error_response (py "No file selected") 400).
Proof.
  intros Hlen Hfile Hname. unfold dispatch, process_pdf, try_except.
  erewrite bind_run
    by (apply request_files_ok; [done | by eapply files_get_form]).
  by rewrite Hfile, bool_decide_true.
Qed.

Lemma process_pdf_not_allowed (req : Request) (w : World E) file :
  (content_length req ≤ MAX_CONTENT_LENGTH)%N →
  files_get (py "pdf") (files req) = Some file →
  filename file ≠ [] →
  allowed_file (filename file) = false →
  dispatch process_pdf req w
  = (w, error_response (py "Only PDF files are allowed") 400).
Proof.
  intros Hlen Hfile Hname Hallowed. unfold dispatch, process_pdf, try_except.
  erewrite bind_run
    by (apply request_files_ok; [done | by eapply files_get_form]).
  by rewrite Hfile, bool_decide_false, Hallowed.
Qed.

(** A valid upload with text in it: the response is what the inner block
    returns, status 200 with the study materials. *)
Lemma process_pdf_text (req : Request) (w : World E) file text :
  (content_length req ≤ MAX_CONTENT_LENGTH)%N →
  files_get (py "pdf") (files req) = Some file →
  filename file ≠ [] →
  allowed_file (filename file) = true →
  save_fault E (upload_path w file) = None →
  extract_text E (stream file) = Ok text →
  PyStr.strip text ≠ [] →
  ∃ w' materials,
    dispatch process_pdf req w = (w', {| status := 200; body := materials |})
    ∧ is_study_materials materials.
Proof.
  intros Hlen Hfile Hname Hallowed Hsave Hext Htext.
  unfold dispatch. rewrite (process_pdf_saved req w file) by done.
  destruct (extract_and_generate_text _ _ _ _ (saved_lookup file w) Hext Htext)
    as (w1 & materials & Hgen & Hrun).
  destruct (clean_up_no_raise (upload_path w file)
              (logged INFO (py "Study materials generated successfully") w1))
    as [[] Hclean].
  destruct (clean_up _ _) as [w2 r] eqn:Hc. simpl in Hclean. subst r.
  erewrite try_finally_run by done.
  exists w2, materials. split; [done|].
  by eapply generate_study_materials_returns.
Qed.

End StatusCodes.

(** * The claims *)

(** ** C1: status codes of [POST /api/process-pdf] *)

(** C1, as stated, fails on an upload named [notes.PDF]: the name does not
    end in [.pdf], the part is there, its name is not empty, the body is
    within the limit, and the response is 200, not 400. *)
Lemma process_pdf_accepts_uppercase_extension :
  PyStr.endswith (py ".pdf") (py "notes.PDF") = false
  ∧ files_get (py "pdf") (files (upload "notes.PDF")) ≠ None
  ∧ (content_length (upload "notes.PDF") ≤ MAX_CONTENT_LENGTH)%N
  ∧ status (dispatch (E:=demo_env) process_pdf (upload "notes.PDF")
              initial_world).2 = 200.
Proof. repeat split; by vm_compute. Qed.

(** C1, amended.  For every request to [POST /api/process-pdf]: when the
    body is longer than 4MB, or the framework refuses the form for
    exceeding its own limits, the response is 413 with a JSON [error] body;
    when the body is within 4MB, the form is read, and it has no [pdf] part,
    or the part has an empty file name, or the text after the last dot of
    the name is not [pdf] compared without regard to case (or the name has
    no dot), the response is 400 with a JSON [error] body; and when the
    checks pass, the upload is saved, and extraction yields text that is not
    blank, the response is 200. *)
Theorem process_pdf_status_codes {E : Env} (req : Request) (w : World E) :
  let r := (dispatch process_pdf req w).2 in
  ((MAX_CONTENT_LENGTH < content_length req)%N ∨ form req = None →
   status r = 413 ∧ is_error r)
  ∧ ((content_length req ≤ MAX_CONTENT_LENGTH)%N →
     is_Some (form req) →
     (files_get (py "pdf") (files req) = None
      ∨ ∃ file, files_get (py "pdf") (files req) = Some file
                ∧ (filename file = [] ∨ ¬ has_pdf_extension (filename file))) →
     status r = 400 ∧ is_error r)
  ∧ (∀ file text,
       (content_length req ≤ MAX_CONTENT_LENGTH)%N →
       files_get (py "pdf") (files req) = Some file →
       filename file ≠ [] →
       has_pdf_extension (filename file) →
       save_fault E (upload_path w file) = None →
       extract_text E (stream file) = Ok text →
       PyStr.strip text ≠ [] →
       status r = 200).
Proof.
  intros r. subst r. split; [|split].
  - intros [Hlen|Hform].
    + rewrite process_pdf_too_large by done. split; [done | by eexists].
    + rewrite process_pdf_form_refused by done. split; [done | by eexists].
  - intros Hlen Hform Hbad.
    assert (∃ msg, dispatch process_pdf req w = (w, error_response msg 400))
      as [msg ->]; [|split; [done | by eexists]].
    destruct Hbad as [Hnone|(file & Hfile & Hbad)].
    { eexists. by apply process_pdf_no_file. }
    destruct (decide (filename file = [])) as [Hname|Hname].
    { eexists. by eapply process_pdf_no_name. }
    destruct Hbad as [?|Hext]; [done|].
    eexists. eapply process_pdf_not_allowed; [done..|].
    apply not_true_is_false. by rewrite allowed_file_spec.
  - intros file text Hlen Hfile Hname Hext Hsave Htext Hblank.
    apply allowed_file_spec in Hext.
    destruct (process_pdf_text req w file text) as (w' & m & -> & _); done.
Qed.

Lemma process_pdf_status_codes_witness :
  status (dispatch (E:=demo_env) process_pdf (upload "notes.pdf")
            initial_world).2 = 200
  ∧ status (dispatch (E:=demo_env) process_pdf (upload "notes.txt")
              initial_world).2 = 400.
Proof.
  split.
  - refine (proj2 (proj2 (process_pdf_status_codes (E:=demo_env)
                            (upload "notes.pdf") initial_world))
              {| filename := py "notes.pdf"; stream := demo_pdf |}
              (py "RAG") _ _ _ _ _ _ _); try by vm_compute.
    exists (py "notes"), (py "pdf"). repeat split; try by vm_compute.
    apply (bool_decide_unpack _). by vm_compute.
  - refine (proj1 (proj1 (proj2 (process_pdf_status_codes (E:=demo_env)
                                   (upload "notes.txt") initial_world))
                     _ _ _)); [by vm_compute|by eexists|].
    right. exists {| filename := py "notes.txt"; stream := demo_pdf |}.
    split; [by vm_compute|]. right.
    intros Hext%allowed_file_spec. by vm_compute in Hext.
Defined.

(** ** C2: the flashcard parser *)

(** C2.  On the success path (the index is there and the model replies),
    [generate_flashcards] returns, and what it returns are the records that
    the claim describes: for each line of the reply, stripped, [Q:] opens a
    record with the rest of the line, stripped, as its question; [A:] sets
    the answer to the rest of the line, stripped; any other non-empty line
    extends an answer in progress after one space; a record counts only with
    a non-empty question and a non-empty answer; the records come in the
    order of the reply, and at most eight are returned. *)
Theorem generate_flashcards_parses_reply {E : Env} (text : str)
    (w : World E) (vs : FAISS E) (reply : str) :
  vectorStore w = Some vs →
  llm_run E (length (calls w)) vs 4 (VStr flashcards_prompt) = Ok reply →
  ∃ w' cards,
    generate_flashcards text w = (w', Ok cards)
    ∧ Forall2 (λ card qa, ∃ id, card = flashcard id qa.1 qa.2)
        cards (spec_flashcards reply)
    ∧ length cards ≤ 8.
Proof.
  intros Hvs Hllm. eexists _, _. split.
  { by eapply generate_flashcards_success. }
  split.
  - unfold spec_flashcards. apply Forall2_take, labelled_Forall2.
  - rewrite length_take. lia.
Qed.

Lemma generate_flashcards_parses_reply_witness :
  ∃ w' cards,
    generate_flashcards (E:=demo_env) (py "RAG") demo_world = (w', Ok cards)
    ∧ Forall2 (λ card qa, ∃ id, card = flashcard id qa.1 qa.2) cards
        [(py "What is an embedding?",
          py "A numeric vector that represents text.");
         (py "What does k control?",
          py "The number of retrieved chunks.")]
    ∧ length cards ≤ 8.
Proof.
  exact (generate_flashcards_parses_reply (E:=demo_env) (py "RAG") demo_world
           [py "An earlier document."] demo_flashcards_reply
           eq_refl eq_refl).
Defined.

(** ** C3: the notes parser *)

(** C3 holds but for the bullet: the notes are the cleaned lines that are
    longer than ten code points, in the order of the reply, cut after the
    tenth; the leading characters that are removed are those of
    [notes_lstrip_chars], among which the bullet U+2022 is not.  On a reply
    whose third line starts with a bullet, [generate_notes] returns that
    note with its bullet, while the digits, the period, the star and the
    spaces that lead the other lines are removed. *)
Theorem generate_notes_keeps_bullet :
  (generate_notes (E:=demo_env) (py "RAG") demo_world).2
  = Ok [py "Retrieval selects the chunks closest to the query.";
        [8226; 32]%N ++ py "Embeddings map text to vectors.";
        py "An index answers nearest-neighbour queries."].
Proof. by vm_compute. Qed.

(** ** C10: the flashcards that are returned *)

Lemma demo_uuid_inj : Inj (=) (=) demo_uuid.
Proof.
  intros n m Heq. unfold demo_uuid in Heq.
  apply app_inv_head in Heq.
  apply (f_equal length) in Heq. by rewrite !length_replicate in Heq.
Qed.

(** C10.  On the success path every flashcard that [generate_flashcards]
    returns has a non-empty question and a non-empty answer, its identifier
    is drawn for it while the reply is parsed (the identifiers of the cards
    are those drawn from the one current at the start onwards, one per
    card), and, identifiers drawn at different times being different, no
    two cards of the response share an identifier. *)
Theorem generate_flashcards_records {E : Env} (text : str) (w : World E)
    (vs : FAISS E) (reply : str) :
  Inj (=) (=) (uuid_gen E) →
  vectorStore w = Some vs →
  llm_run E (length (calls w)) vs 4 (VStr flashcards_prompt) = Ok reply →
  ∃ w' cards,
    generate_flashcards text w = (w', Ok cards)
    ∧ Forall (λ card, ∃ id q a,
                card = flashcard id q a ∧ q ≠ [] ∧ a ≠ []) cards
    ∧ card_id <$> cards
      = (λ n, Some (uuid_gen E n)) <$> seq (uuid_ctr w) (length cards)
    ∧ uuid_ctr w + length cards ≤ uuid_ctr w'
    ∧ NoDup (card_id <$> cards).
Proof.
  intros Hinj Hvs Hllm. eexists _, _. split.
  { by eapply generate_flashcards_success. }
  set (recs := spec_records [] [] (PyStr.split 10 (PyStr.strip reply))).
  assert (card_id <$> take 8 (labelled (uuid_ctr w) recs)
          = (λ n, Some (uuid_gen E n))
              <$> seq (uuid_ctr w)
                    (length (take 8 (labelled (uuid_ctr w) recs)))) as Hids.
  { rewrite fmap_take, labelled_ids, <- fmap_take, take_seq.
    by rewrite length_take, labelled_length. }
  split; [|split; [done|split]].
  - apply Forall_take. apply Forall_forall. intros card Hcard.
    apply list_elem_of_lookup in Hcard as [i Hi].
    unfold labelled in Hi. rewrite list_lookup_imap in Hi.
    destruct (recs !! i) as [[q a]|] eqn:Hrec; simplify_eq/=.
    pose proof (spec_records_nonempty
                  (PyStr.split 10 (PyStr.strip reply)) [] []) as Hne.
    rewrite Forall_forall in Hne.
    destruct (Hne (q, a)) as [Hq Ha];
      [by eapply list_elem_of_lookup_2|].
    by eexists _, q, a.
  - rewrite length_take, labelled_length. unfold drawn, called.
    cbn [uuid_ctr]. lia.
  - rewrite Hids. apply NoDup_fmap_2; [|apply NoDup_seq].
    intros n m [= Hnm]. by apply Hinj.
Qed.

Lemma generate_flashcards_records_witness :
  ∃ w' cards,
    generate_flashcards (E:=demo_env) (py "RAG") demo_world = (w', Ok cards)
    ∧ Forall (λ card, ∃ id q a,
                card = flashcard id q a ∧ q ≠ [] ∧ a ≠ []) cards
    ∧ card_id <$> cards
      = (λ n, Some (demo_uuid n)) <$> seq 5 (length cards)
    ∧ 5 + length cards ≤ uuid_ctr w'
    ∧ NoDup (card_id <$> cards).
Proof.
  exact (generate_flashcards_records (E:=demo_env) (py "RAG") demo_world
           [py "An earlier document."] demo_flashcards_reply
           demo_uuid_inj eq_refl eq_refl).
Defined.

(** ** C4: what becomes of a failure *)

Section Failures.
Context {E : Env}.

Lemma qa_chain_run_fails (w : World E) vs k q e :
  llm_run E (length (calls w)) vs k q = Raise e →
  qa_chain_run vs k q w = (called (Retrieve k q) w, Raise e).
Proof.
  intros Hllm. unfold qa_chain_run, mbind, M_bind, record_call, lift_result.
  by rewrite Hllm.
Qed.

(** Runs the handler of a caught failure. *)
Ltac handle :=
  unfold caught_as, mbind, M_bind, logger, uuid4, mret, M_ret; cbn -[py].

Lemma bind_raise_run {A B} (m : M A) (f : A → M B) (w w' : World E) e :
  m w = (w', Raise e) → (m ≫= f) w = (w', Raise e).
Proof. unfold mbind, M_bind. by intros ->. Qed.

(** The retrieval of [generate_summary] comes after the two library calls of
    [create_vector_store]. *)
Lemma generate_summary_llm_fails text (w : World E) v e :
  index_of text = Ok v →
  llm_run E (length (calls w) + 2) v 3 (VStr summary_prompt) = Raise e →
  caught_as (generate_summary text w)
    (py "Error generating summary: " ++ exn_str e)
    (py "Failed to generate summary. Please try again.").
Proof.
  intros Hidx Hllm.
  destruct (create_vector_store_run text w)
    as (w1 & Hrun & _ & _ & _ & Hcalls & _).
  rewrite Hidx in Hrun.
  unfold generate_summary, try_except.
  erewrite bind_run by exact Hrun.
  erewrite bind_raise_run; last first.
  { apply qa_chain_run_fails. rewrite Hcalls, length_app. exact Hllm. }
  handle. split; [done|]. by rewrite last_snoc.
Qed.

Lemma generate_summary_index_fails text (w : World E) e :
  index_of text = Raise e →
  caught_as (generate_summary text w)
    (py "Error generating summary: " ++ exn_str e)
    (py "Failed to generate summary. Please try again.").
Proof.
  intros Hidx.
  destruct (create_vector_store_run text w) as (w1 & Hrun & _).
  rewrite Hidx in Hrun.
  unfold generate_summary, try_except.
  erewrite bind_raise_run by exact Hrun.
  handle. split; [done|]. by rewrite last_snoc.
Qed.

Lemma generate_notes_no_index text (w : World E) :
  vectorStore w = None →
  caught_as (generate_notes text w)
    (py "Error generating notes: "
       ++ py "'AIService' object has no attribute 'vectorStore'")
    [py "Failed to generate notes. Please try again."].
Proof.
  intros Hvs. unfold generate_notes, try_except.
  erewrite bind_raise_run; last by (unfold get_vectorStore; rewrite Hvs).
  handle. split; [done|]. by rewrite last_snoc.
Qed.

Lemma generate_flashcards_no_index text (w : World E) :
  vectorStore w = None →
  caught_as (generate_flashcards text w)
    (py "Error generating flashcards: "
       ++ py "'AIService' object has no attribute 'vectorStore'")
    [flashcard (uuid_gen E (uuid_ctr w)) (py "Error generating flashcards")
       (py "Please try again with a different document.")].
Proof.
  intros Hvs. unfold generate_flashcards, try_except.
  erewrite bind_raise_run; last by (unfold get_vectorStore; rewrite Hvs).
  handle. split; [done|]. by rewrite last_snoc.
Qed.

Lemma generate_notes_llm_fails text (w : World E) v e :
  vectorStore w = Some v →
  llm_run E (length (calls w)) v 4 (VStr notes_prompt) = Raise e →
  caught_as (generate_notes text w)
    (py "Error generating notes: " ++ exn_str e)
    [py "Failed to generate notes. Please try again."].
Proof.
  intros Hvs Hllm. unfold generate_notes, try_except.
  erewrite bind_run; last by (unfold get_vectorStore; rewrite Hvs).
  erewrite bind_raise_run by (by apply qa_chain_run_fails).
  handle. split; [done|]. by rewrite last_snoc.
Qed.

Lemma generate_flashcards_llm_fails text (w : World E) v e :
  vectorStore w = Some v →
  llm_run E (length (calls w)) v 4 (VStr flashcards_prompt) = Raise e →
  caught_as (generate_flashcards text w)
    (py "Error generating flashcards: " ++ exn_str e)
    [flashcard (uuid_gen E (uuid_ctr w)) (py "Error generating flashcards")
       (py "Please try again with a different document.")].
Proof.
  intros Hvs Hllm. unfold generate_flashcards, try_except.
  erewrite bind_run; last by (unfold get_vectorStore; rewrite Hvs).
  erewrite bind_raise_run by (by apply qa_chain_run_fails).
  handle. split; [done|]. by rewrite last_snoc.
Qed.

Lemma generate_study_materials_index_fails text (w : World E) e :
  index_of text = Raise e →
  caught_as (generate_study_materials text w)
    (py "Error generating study materials: " ++ exn_str e)
    (fallback_materials (uuid_gen E (uuid_ctr w))).
Proof.
  intros Hidx.
  set (w0 := logged INFO (py "Starting study materials generation...") w).
  destruct (create_vector_store_run text w0)
    as (w1 & Hrun & _ & _ & Hctr & _).
  rewrite Hidx in Hrun.
  unfold generate_study_materials, try_except.
  erewrite bind_run by reflexivity.
  erewrite bind_raise_run by exact Hrun.
  handle. split; [by rewrite Hctr | by rewrite last_snoc].
Qed.

End Failures.

Section HandlerFailures.
Context {E : Env}.

(** A valid, saved upload on which the extractor fails. *)
Lemma process_pdf_extract_fails (req : Request) (w : World E) file e :
  (content_length req ≤ MAX_CONTENT_LENGTH)%N →
  files_get (py "pdf") (files req) = Some file →
  filename file ≠ [] →
  allowed_file (filename file) = true →
  save_fault E (upload_path w file) = None →
  extract_text E (stream file) = Raise e →
  (dispatch process_pdf req w).2
  = error_response (py "Failed to process PDF: " ++ exn_str e) 500
  ∧ (ERROR, py "Error processing PDF: " ++ exn_str e)
    ∈ log (dispatch process_pdf req w).1.
Proof.
  intros Hlen Hfile Hname Hallowed Hsave Hext.
  unfold dispatch. rewrite (process_pdf_saved req w file) by done.
  pose proof (extract_and_generate_extract_fails _ _ _ _
                (saved_lookup file w) Hext) as Hbody.
  pose proof (clean_up_run (upload_path w file)
                (logged ERROR (py "Error processing PDF: " ++ exn_str e)
                   (logged INFO (py "Extracting text from PDF...")
                      (saved file w)))
                (stream file) (saved_lookup file w)) as Hclean.
  destruct (remove_fault E (upload_path w file));
    rewrite (try_finally_run _ _ _ _ _ _ Hbody Hclean); cbn -[py];
    (split; [done|]); set_solver.
Qed.

(** A valid upload whose save fails. *)
Lemma process_pdf_save_fails (req : Request) (w : World E) file e :
  (content_length req ≤ MAX_CONTENT_LENGTH)%N →
  files_get (py "pdf") (files req) = Some file →
  filename file ≠ [] →
  allowed_file (filename file) = true →
  save_fault E (upload_path w file) = Some e →
  exn_cls e ≠ RequestEntityTooLarge →
  (dispatch process_pdf req w).2
  = error_response (py "An unexpected error occurred") 500
  ∧ last (log (dispatch process_pdf req w).1)
    = Some (ERROR, py "Unexpected error: " ++ exn_str e).
Proof.
  intros Hlen Hfile Hname Hallowed Hsave Hcls.
  assert (process_pdf req w
          = (logged ERROR (py "Unexpected error: " ++ exn_str e) (drawn 1 w),
             Ok (error_response (py "An unexpected error occurred") 500)))
    as Hrun.
  { unfold process_pdf. unfold try_except at 1.
    erewrite bind_run
      by (apply request_files_ok; [done | by eapply files_get_form]).
    rewrite Hfile, bool_decide_false, Hallowed by done. cbn [negb].
    erewrite bind_run by reflexivity.
    erewrite bind_raise_run;
      last by (unfold file_save;
               change (path_join _ _) with (upload_path w file);
               rewrite Hsave).
    by destruct (exn_cls e). }
  unfold dispatch. rewrite Hrun. cbn -[py].
  split; [done | by rewrite last_snoc].
Qed.

End HandlerFailures.

(** C4, as stated, fails: when the extractor fails the payload is
    [{'error': 'Failed to process PDF: EOF marker not found'}] with status
    500, its message carries the text of the failure and is not the
    placeholder; when the index cannot be built there is no error payload at
    all, the response is 200 with the fallback study materials; the two
    responses differ. *)
Lemma failure_payloads_differ :
  (dispatch (E:=broken_pdf_env) process_pdf (upload "notes.pdf")
     initial_world).2
  = {| status := 500;
       body := VDict [(py "error",
                       VStr (py "Failed to process PDF: EOF marker not found"))] |}
  ∧ PyStr.contains (py "Please try again")
      (py "Failed to process PDF: EOF marker not found") = false
  ∧ (dispatch (E:=no_embeddings_env) process_pdf (upload "notes.pdf")
       initial_world).2
    = {| status := 200; body := fallback_materials (demo_uuid 1) |}.
Proof. repeat split; by vm_compute. Qed.

(** C4, amended.  No generation operation raises.  Every failure inside
    one (the index that cannot be built, the index that is missing, the
    model call that fails) is caught, logged as an error with the text of
    the failure, and replaced by a fallback value of the operation's own,
    returned as a normal result, so that an upload whose text is extracted
    is answered with status 200 and study materials, without an [error]
    key, whatever the index builder and the model do.  In the handler a
    failure of the extraction is caught, logged, and answered with status
    500 and [{'error': 'Failed to process PDF: ' + text of the failure}]; a
    failure of the save is answered with status 500 and
    [{'error': 'An unexpected error occurred'}]. *)
Theorem failures_are_caught_and_replaced {E : Env} :
  (∀ text,
     no_raise (generate_summary text) ∧ no_raise (generate_notes text)
     ∧ no_raise (generate_flashcards text)
     ∧ no_raise (generate_study_materials text))
  ∧ (∀ text (w : World E) e,
       index_of text = Raise e →
       caught_as (generate_summary text w)
         (py "Error generating summary: " ++ exn_str e)
         (py "Failed to generate summary. Please try again."))
  ∧ (∀ text (w : World E) v e,
       index_of text = Ok v →
       llm_run E (length (calls w) + 2) v 3 (VStr summary_prompt) = Raise e →
       caught_as (generate_summary text w)
         (py "Error generating summary: " ++ exn_str e)
         (py "Failed to generate summary. Please try again."))
  ∧ (∀ text (w : World E),
       vectorStore w = None →
       caught_as (generate_notes text w)
         (py "Error generating notes: "
            ++ py "'AIService' object has no attribute 'vectorStore'")
         [py "Failed to generate notes. Please try again."])
  ∧ (∀ text (w : World E) v e,
       vectorStore w = Some v →
       llm_run E (length (calls w)) v 4 (VStr notes_prompt) = Raise e →
       caught_as (generate_notes text w)
         (py "Error generating notes: " ++ exn_str e)
         [py "Failed to generate notes. Please try again."])
  ∧ (∀ text (w : World E),
       vectorStore w = None →
       caught_as (generate_flashcards text w)
         (py "Error generating flashcards: "
            ++ py "'AIService' object has no attribute 'vectorStore'")
         [flashcard (uuid_gen E (uuid_ctr w))
            (py "Error generating flashcards")
            (py "Please try again with a different document.")])
  ∧ (∀ text (w : World E) v e,
       vectorStore w = Some v →
       llm_run E (length (calls w)) v 4 (VStr flashcards_prompt) = Raise e →
       caught_as (generate_flashcards text w)
         (py "Error generating flashcards: " ++ exn_str e)
         [flashcard (uuid_gen E (uuid_ctr w))
            (py "Error generating flashcards")
            (py "Please try again with a different document.")])
  ∧ (∀ text (w : World E) e,
       index_of text = Raise e →
       caught_as (generate_study_materials text w)
         (py "Error generating study materials: " ++ exn_str e)
         (fallback_materials (uuid_gen E (uuid_ctr w))))
  ∧ (∀ req (w : World E) file text,
       (content_length req ≤ MAX_CONTENT_LENGTH)%N →
       files_get (py "pdf") (files req) = Some file →
       filename file ≠ [] →
       allowed_file (filename file) = true →
       save_fault E (upload_path w file) = None →
       extract_text E (stream file) = Ok text →
       PyStr.strip text ≠ [] →
       status (dispatch process_pdf req w).2 = 200
       ∧ is_study_materials (body (dispatch process_pdf req w).2)
       ∧ ¬ is_error (dispatch process_pdf req w).2)
  ∧ (∀ req (w : World E) file e,
       (content_length req ≤ MAX_CONTENT_LENGTH)%N →
       files_get (py "pdf") (files req) = Some file →
       filename file ≠ [] →
       allowed_file (filename file) = true →
       save_fault E (upload_path w file) = None →
       extract_text E (stream file) = Raise e →
       (dispatch process_pdf req w).2
       = error_response (py "Failed to process PDF: " ++ exn_str e) 500
       ∧ (ERROR, py "Error processing PDF: " ++ exn_str e)
         ∈ log (dispatch process_pdf req w).1)
  ∧ (∀ req (w : World E) file e,
       (content_length req ≤ MAX_CONTENT_LENGTH)%N →
       files_get (py "pdf") (files req) = Some file →
       filename file ≠ [] →
       allowed_file (filename file) = true →
       save_fault E (upload_path w file) = Some e →
       exn_cls e ≠ RequestEntityTooLarge →
       (dispatch process_pdf req w).2
       = error_response (py "An unexpected error occurred") 500
       ∧ last (log (dispatch process_pdf req w).1)
         = Some (ERROR, py "Unexpected error: " ++ exn_str e)).
Proof.
  split.
  { intros text.
    eauto using generate_summary_no_raise, generate_notes_no_raise,
      generate_flashcards_no_raise, generate_study_materials_no_raise. }
  repeat apply conj.
  - apply @generate_summary_index_fails.
  - apply @generate_summary_llm_fails.
  - apply @generate_notes_no_index.
  - apply @generate_notes_llm_fails.
  - apply @generate_flashcards_no_index.
  - apply @generate_flashcards_llm_fails.
  - apply @generate_study_materials_index_fails.
  - intros req w file text Hlen Hfile Hname Hallowed Hsave Hext Htext.
    destruct (process_pdf_text req w file text)
      as (w' & materials & -> & Hshape); [done..|].
    split; [done|]. split; [done|].
    destruct Hshape as (summary & notes & cards & -> & _).
    by intros [msg [=]].
  - apply @process_pdf_extract_fails.
  - apply @process_pdf_save_fails.
Qed.

Lemma failures_are_caught_and_replaced_witness :
  (dispatch (E:=broken_pdf_env) process_pdf (upload "notes.pdf")
     initial_world).2
  = error_response (py "Failed to process PDF: EOF marker not found") 500
  ∧ caught_as
      (generate_study_materials (E:=no_embeddings_env) (py "RAG")
         initial_world)
      (py "Error generating study materials: embedding model unavailable")
      (fallback_materials (demo_uuid 0))
  ∧ status (dispatch (E:=no_embeddings_env) process_pdf (upload "notes.pdf")
              initial_world).2 = 200.
Proof.
  pose proof (failures_are_caught_and_replaced (E:=broken_pdf_env))
    as (_ & _ & _ & _ & _ & _ & _ & _ & _ & Hextract & _).
  pose proof (failures_are_caught_and_replaced (E:=no_embeddings_env))
    as (_ & _ & _ & _ & _ & _ & _ & Hindex & Hupload & _).
  split; [|split].
  - refine (proj1 (Hextract (upload "notes.pdf") initial_world
                     {| filename := py "notes.pdf"; stream := demo_pdf |}
                     (Exn OtherException (py "EOF marker not found"))
                     _ _ _ _ _ _)); by vm_compute.
  - exact (Hindex (py "RAG") initial_world
             (Exn OtherException (py "embedding model unavailable"))
             eq_refl).
  - refine (proj1 (Hupload (upload "notes.pdf") initial_world
                     {| filename := py "notes.pdf"; stream := demo_pdf |}
                     (py "RAG") _ _ _ _ _ _ _)); by vm_compute.
Defined.

(** ** C5: the index held by the service *)

Section Index.
Context {E : Env}.

Lemma establishes_after {A B} (Q : World E → Prop) (m : M A) (f : A → M B) :
  no_raise m → (∀ a, establishes Q (f a)) → establishes Q (m ≫= f).
Proof.
  intros Hm Hf w. unfold mbind, M_bind. destruct (Hm w) as [a Ha].
  destruct (m w) as [w' r]; simpl in *; subst r. apply Hf.
Qed.

Lemma establishes_kept {A B} (Q : World E → Prop) (R : relation (World E))
    (m : M A) (f : A → M B) :
  (∀ w w', R w w' → Q w → Q w') →
  establishes Q m → (∀ a, preserves R (f a)) → establishes Q (m ≫= f).
Proof.
  intros HR Hm Hf w. unfold mbind, M_bind. specialize (Hm w).
  destruct (m w) as [w' [a|e]]; simpl in *; [|done].
  eapply HR; [apply Hf | done].
Qed.

Lemma establishes_try_except {A} (Q : World E → Prop)
    (R : relation (World E)) (body : M A) (handler : exn → M A) :
  (∀ w w', R w w' → Q w → Q w') →
  establishes Q body → (∀ e, preserves R (handler e)) →
  establishes Q (try_except body handler).
Proof.
  intros HR Hb Hh w. unfold try_except. specialize (Hb w).
  destruct (body w) as [w' [a|e]]; simpl in *; [done|].
  eapply HR; [apply Hh | done].
Qed.

Lemma create_vector_store_installs text v :
  index_of text = Ok v →
  establishes (λ w, vectorStore w = Some v) (create_vector_store text).
Proof.
  intros Hidx w.
  destruct (create_vector_store_run text w) as (w' & -> & Hs & _).
  simpl. by rewrite Hs, Hidx.
Qed.

Lemma generate_study_materials_installs text v :
  index_of text = Ok v →
  establishes (λ w, vectorStore w = Some v) (generate_study_materials text).
Proof.
  intros Hidx. unfold generate_study_materials.
  pose proof (generate_summary_store_stays text v Hidx).
  pose proof (generate_notes_store_stays text v).
  pose proof (generate_flashcards_store_stays text v).
  apply (establishes_try_except _ (store_stays v)); [by intros ?? Hr; apply Hr| |].
  - apply establishes_after; [apply no_raise_logger|]. intros _.
    apply (establishes_kept _ (store_stays v)); [by intros ?? Hr; apply Hr| |].
    + by apply create_vector_store_installs.
    + intros vs. frame.
  - intros e. frame.
Qed.

End Index.

(** C5.  A call of [create_vector_store] that returns has built the index of
    the chunks of its text and has assigned it to [vectorStore]; and, the
    index of a text being buildable, [generate_study_materials] on that text
    ends with [vectorStore] holding that index, whatever it held before. *)
Theorem vector_store_is_latest_upload {E : Env} (text : str) (w : World E) :
  (∀ w' v, create_vector_store text w = (w', Ok v) →
           index_of text = Ok v ∧ vectorStore w' = Some v)
  ∧ (∀ v, index_of text = Ok v →
          vectorStore (generate_study_materials text w).1 = Some v).
Proof.
  split.
  - intros w' v Hrun.
    destruct (create_vector_store_run text w) as (w1 & Hrun' & Hs & _).
    rewrite Hrun in Hrun'. injection Hrun' as -> Hidx.
    split; [done|]. by rewrite Hs, <- Hidx.
  - intros v Hidx. by apply generate_study_materials_installs.
Qed.

Lemma vector_store_is_latest_upload_witness :
  vectorStore (generate_study_materials (E:=demo_env) (py "A new document.")
                 demo_world).1
  = Some [py "A new document."].
Proof.
  exact (proj2 (vector_store_is_latest_upload (E:=demo_env)
                  (py "A new document.") demo_world)
           [py "A new document."] eq_refl).
Defined.

(** ** C6: the parameters of chunking and retrieval *)

Section Parameters.
Context {E : Env}.

Lemma generate_summary_retrieves text (w : World E) v :
  index_of text = Ok v →
  Retrieve 3 (VStr summary_prompt) ∈ calls (generate_summary text w).1.
Proof.
  intros Hidx.
  destruct (create_vector_store_run text w) as (w1 & Hrun & _).
  rewrite Hidx in Hrun.
  unfold generate_summary, try_except.
  erewrite bind_run by exact Hrun.
  unfold qa_chain_run, mbind, M_bind, record_call, lift_result, logger.
  cbn -[py summary_prompt].
  destruct (llm_run E _ _ _ _); cbn -[py summary_prompt]; set_solver.
Qed.

Lemma generate_notes_retrieves text (w : World E) v :
  vectorStore w = Some v →
  Retrieve 4 (VStr notes_prompt) ∈ calls (generate_notes text w).1.
Proof.
  intros Hvs. unfold generate_notes, try_except.
  erewrite bind_run; last by (unfold get_vectorStore; rewrite Hvs).
  unfold qa_chain_run, mbind, M_bind, record_call, lift_result, logger.
  cbn -[py notes_prompt].
  destruct (llm_run E _ _ _ _); cbn -[py notes_prompt]; set_solver.
Qed.

Lemma generate_flashcards_retrieves text (w : World E) v :
  vectorStore w = Some v →
  Retrieve 4 (VStr flashcards_prompt) ∈ calls (generate_flashcards text w).1.
Proof.
  intros Hvs.
  destruct (llm_run E (length (calls w)) v 4 (VStr flashcards_prompt))
    as [reply|e] eqn:Hllm.
  - erewrite generate_flashcards_success by done.
    cbn -[py flashcards_prompt]. set_solver.
  - unfold generate_flashcards, try_except.
    erewrite bind_run; last by (unfold get_vectorStore; rewrite Hvs).
    erewrite bind_raise_run by (by apply qa_chain_run_fails).
    unfold mbind, M_bind, logger, uuid4. cbn -[py flashcards_prompt].
    set_solver.
Qed.

Lemma query_response_retrieves q (w : World E) v :
  vectorStore w = Some v →
  Retrieve 4 q ∈ calls (query_response q w).1.
Proof.
  intros Hvs. unfold query_response, try_except.
  erewrite bind_run; last by (unfold get_vectorStore; rewrite Hvs).
  pose proof (qa_chain_call_calls v 4 q w) as Hcalls.
  destruct (qa_chain_call v 4 q w) as [w1 [r|e]] eqn:Hcall;
    cbn [fst] in Hcalls.
  - erewrite bind_run by exact Hcall. cbn -[py].
    rewrite Hcalls. apply elem_of_app. right. constructor.
  - erewrite bind_raise_run by exact Hcall.
    unfold mbind, M_bind, logger, uuid4. cbn -[py].
    rewrite Hcalls. apply elem_of_app. right. constructor.
Qed.

End Parameters.

(** C6.  Whatever the text, the query and the state: the splitter has chunk
    size 1000 and overlap 200 and every call of it is made with these sizes;
    [create_vector_store] retrieves nothing; every retrieval that
    [generate_summary] makes has [k = 3]; every retrieval that
    [generate_notes], [generate_flashcards] or [query_response] makes has
    [k = 4]; and these calls are indeed made: the text is split on every
    run of [create_vector_store], and each operation retrieves whenever it
    has an index to retrieve from. *)
Theorem chunking_and_retrieval_parameters_fixed {E : Env} (text : str)
    (q : value) (w : World E) :
  (chunk_size text_splitter = 1000 ∧ chunk_overlap text_splitter = 200)
  ∧ (∀ k, calls_grow (fixed_parameters k) w (create_vector_store text w).1)
  ∧ calls_grow (fixed_parameters 3) w (generate_summary text w).1
  ∧ calls_grow (fixed_parameters 4) w (generate_notes text w).1
  ∧ calls_grow (fixed_parameters 4) w (generate_flashcards text w).1
  ∧ calls_grow (fixed_parameters 4) w (query_response q w).1
  ∧ SplitText 1000 200 text ∈ calls (create_vector_store text w).1
  ∧ (∀ v, index_of text = Ok v →
          Retrieve 3 (VStr summary_prompt)
          ∈ calls (generate_summary text w).1)
  ∧ (∀ v, vectorStore w = Some v →
          Retrieve 4 (VStr notes_prompt) ∈ calls (generate_notes text w).1
          ∧ Retrieve 4 (VStr flashcards_prompt)
            ∈ calls (generate_flashcards text w).1
          ∧ Retrieve 4 q ∈ calls (query_response q w).1).
Proof.
  split; [done|].
  split; [intros k; apply create_vector_store_calls|].
  split; [apply generate_summary_calls|].
  split; [apply generate_notes_calls|].
  split; [apply generate_flashcards_calls|].
  split; [apply query_response_calls|].
  split; [|split].
  - destruct (create_vector_store_run text w)
      as (w1 & -> & _ & _ & _ & Hcalls & _).
    simpl. rewrite Hcalls. set_solver.
  - intros v. apply generate_summary_retrieves.
  - intros v Hvs. split; [|split].
    + by eapply generate_notes_retrieves.
    + by eapply generate_flashcards_retrieves.
    + by eapply query_response_retrieves.
Qed.

Lemma chunking_and_retrieval_parameters_fixed_witness :
  Retrieve 3 (VStr summary_prompt)
  ∈ calls (generate_summary (E:=demo_env) (py "RAG") demo_world).1
  ∧ Retrieve 4 (VStr notes_prompt)
    ∈ calls (generate_notes (E:=demo_env) (py "RAG") demo_world).1.
Proof.
  pose proof (chunking_and_retrieval_parameters_fixed (E:=demo_env)
                (py "RAG") (VStr (py "What is k?")) demo_world)
    as (_ & _ & _ & _ & _ & _ & _ & Hsummary & Hothers).
  split.
  - exact (Hsummary [py "RAG"] eq_refl).
  - exact (proj1 (Hothers [py "An earlier document."] eq_refl)).
Defined.

(** ** C7: the temporary file *)




(** ** C8: the body of a successful response *)

Section SuccessBody.
Context {E : Env}.

Lemma returns_try_finally {A} (Q : A → Prop) (body : M A) (cleanup : M unit) :
  returns Q body → returns Q (try_finally body cleanup).
Proof.
  intros Hb w w' a. unfold try_finally.
  destruct (body w) as [w1 r] eqn:Hw.
  destruct (cleanup w1) as [w2 [[]|e]]; [|done].
  intros [= <- ->]. by eapply Hb.
Qed.

Lemma returns_raise {A} (Q : A → Prop) (e : exn) : returns Q (raise e).
Proof. by intros w w' a. Qed.

(** Every response of the view with status 200 carries study materials. *)
Lemma process_pdf_returns (req : Request) :
  returns (λ r, status r = 200 → is_study_materials (body r))
    (process_pdf req).
Proof.
  unfold process_pdf.
  repeat first
    [ apply returns_try_except; [|intros ?]
    | apply returns_try_finally
    | apply returns_raise
    | apply returns_ret; simpl; first [done | lia]
    | eapply returns_bind;
      [first [apply generate_study_materials_returns | apply returns_True]
      |intros ? ?]
    | match goal with
      | |- returns _ (if ?b then _ else _) => destruct b
      | |- returns _ (match ?x with _ => _ end) => destruct x
      end ].
Qed.

End SuccessBody.

(** C8.  Every response of [POST /api/process-pdf] with status 200 has as
    its body a dictionary with exactly the keys [summary], [notes] and
    [flashcards], in which the summary is a string, the notes are a list of
    strings, and the flashcards are a list of dictionaries with exactly the
    keys [id], [question] and [answer], each holding a string. *)
Theorem process_pdf_success_body {E : Env} (req : Request) (w : World E) :
  status (dispatch process_pdf req w).2 = 200 →
  ∃ summary notes cards,
    body (dispatch process_pdf req w).2
    = VDict [(py "summary", VStr summary);
             (py "notes", VList (VStr <$> notes));
             (py "flashcards", VList cards)]
    ∧ Forall (λ card, ∃ id question answer,
                card = VDict [(py "id", VStr id);
                              (py "question", VStr question);
                              (py "answer", VStr answer)]) cards.
Proof.
  unfold dispatch.
  destruct (process_pdf req w) as [w' [r|e]] eqn:Hrun; simpl.
  - intros Hstatus. by eapply (process_pdf_returns req).
  - destruct (exn_cls e); simpl; lia.
Qed.

Lemma process_pdf_success_body_witness :
  ∃ summary notes cards,
    body (dispatch (E:=demo_env) process_pdf (upload "notes.pdf")
            initial_world).2
    = VDict [(py "summary", VStr summary);
             (py "notes", VList (VStr <$> notes));
             (py "flashcards", VList cards)]
    ∧ Forall (λ card, ∃ id question answer,
                card = VDict [(py "id", VStr id);
                              (py "question", VStr question);
                              (py "answer", VStr answer)]) cards.
Proof.
  apply (process_pdf_success_body (E:=demo_env) (upload "notes.pdf")
           initial_world).
  by vm_compute.
Defined.

(** ** C9: a query before any upload *)

Lemma dict_get_is_Some (k : str) (items : list (str * value)) :
  k ∈ items.*1 → is_Some (dict_get k items).
Proof.
  induction items as [|[k' v] items IH]; simpl.
  - by intros ?%elem_of_nil.
  - intros Hin. case_bool_decide; [by eexists|].
    apply IH. apply elem_of_cons in Hin as [?|?]; [by subst | done].
Qed.

(** C9.  For every request to [POST /api/query] whose JSON body is an object
    with the key [message], made while no index has been installed, the
    view does not raise and the response has status 200: [query_response]
    catches the failure of reading [vectorStore], logs it, and returns a
    one-element list with an identifier drawn for it and the message
    [Something went wrong], which the view puts under [response]. *)
Theorem query_before_upload {E : Env} (req : Request) (w : World E)
    (items : list (str * value)) :
  vectorStore w = None →
  get_json req = Ok (VDict items) →
  py "message" ∈ items.*1 →
  let response :=
    {| status := 200;
       body :=
         VDict [(py "response",
                 VList [VDict [(py "id", VStr (uuid_gen E (uuid_ctr w)));
                               (py "message",
                                VStr (py "Something went wrong"))]])] |} in
  let w' :=
    drawn 1
      (logged ERROR
         (py "Error generating flashcards: 'AIService' object has no attribute 'vectorStore'")
         w) in
  query_pdf req w = (w', Ok response)
  ∧ dispatch query_pdf req w = (w', response).
Proof.
  intros Hvs Hjson Hkey response w'.
  assert (query_pdf req w = (w', Ok response)) as Hrun.
  { destruct (dict_get_is_Some _ _ Hkey) as [message Hmessage].
    unfold query_pdf, try_except.
    erewrite bind_run by (by rewrite Hjson).
    assert (value_truthy (VDict items) = true) as ->.
    { destruct items; [by apply elem_of_nil in Hkey | done]. }
    cbn [negb].
    erewrite bind_run;
      last by (unfold lift_result; cbn -[py]; rewrite bool_decide_true).
    cbn [negb].
    erewrite bind_run;
      last by (unfold lift_result; cbn -[py]; rewrite Hmessage).
    erewrite bind_run; [done|].
    unfold query_response, try_except.
    erewrite bind_raise_run; last by (unfold get_vectorStore; rewrite Hvs).
    done. }
  split; [done|]. unfold dispatch. by rewrite Hrun.
Qed.

Lemma query_before_upload_witness :
  status (dispatch (E:=demo_env) query_pdf
            {| content_length := 20; form := Some [];
               get_json := Ok (VDict [(py "message", VStr (py "hi"))]) |}
            initial_world).2 = 200.
Proof.
  refine (f_equal (λ out, status out.2)
            (proj2 (query_before_upload (E:=demo_env)
                      {| content_length := 20; form := Some [];
                         get_json :=
                           Ok (VDict [(py "message", VStr (py "hi"))]) |}
                      initial_world [(py "message", VStr (py "hi"))]
                      eq_refl eq_refl _))).
  simpl. constructor.
Defined.

(** * Further properties of the code *)

(** ** File names accepted by [allowed_file] *)

(** X1.  [allowed_file] accepts a name exactly when the name has a dot and
    the text after its last dot is [pdf] in any mix of upper and lower case;
    in particular a name without a dot is refused whatever it is, and only
    the last extension counts. *)
Theorem allowed_file_iff_last_extension (name : str) :
  (allowed_file name = true ↔
   ∃ stem ext, name = stem ++ [46%N] ++ ext ∧ (46%N ∉ ext)
               ∧ PyStr.lower ext = py "pdf")
  ∧ ((46%N ∉ name) → allowed_file name = false)
  ∧ (∀ stem ext, (46%N ∉ ext) →
       allowed_file (stem ++ [46%N] ++ ext) = allowed_file ([46%N] ++ ext)).
Proof.
  split; [apply allowed_file_spec|split].
  - intros Hno. unfold allowed_file.
    destruct (PyStr.char_in name 46) eqn:Hin; [|done].
    by apply char_in_elem_of in Hin.
  - intros stem ext Hno. unfold allowed_file.
    change (stem ++ [46%N] ++ ext) with (stem ++ 46%N :: ext).
    change ([46%N] ++ ext) with ([] ++ 46%N :: ext).
    rewrite !(rsplit1_last _ _ _ Hno). simpl.
    replace (PyStr.char_in (stem ++ 46%N :: ext) 46) with true; [done|].
    symmetry. apply char_in_elem_of. set_solver.
Qed.

Lemma allowed_file_iff_last_extension_witness :
  allowed_file (py "lecture.notes.Pdf") = true
  ∧ allowed_file (py "lecture_pdf") = false.
Proof.
  split.
  - apply (proj1 (allowed_file_iff_last_extension (py "lecture.notes.Pdf"))).
    exists (py "lecture.notes"), (py "Pdf").
    repeat split; try by vm_compute.
    apply (bool_decide_unpack _). by vm_compute.
  - apply (proj1 (proj2 (allowed_file_iff_last_extension (py "lecture_pdf")))).
    apply (bool_decide_unpack _). by vm_compute.
Defined.

(** ** The notes that [generate_notes] returns *)

Lemma lstrip_by_head (p : N → bool) (s : str) (c : N) :
  head (PyStr.lstrip_by p s) = Some c → p c = false.
Proof.
  induction s as [|d s IH]; simpl; [done|].
  destruct (p d) eqn:Hd; [done|]. simpl. by intros [= <-].
Qed.

Lemma lstrip_by_suffix (p : N → bool) (s : str) :
  PyStr.lstrip_by p s `suffix_of` s.
Proof.
  induction s as [|d s IH]; simpl; [done|].
  destruct (p d); [by apply suffix_cons_r | done].
Qed.

Lemma rstrip_by_last (p : N → bool) (s : str) (c : N) :
  last (PyStr.rstrip_by p s) = Some c → p c = false.
Proof.
  induction s as [|d s IH]; simpl; [done|].
  destruct (PyStr.rstrip_by p s) as [|d' s'] eqn:Hs.
  - destruct (p d) eqn:Hd; simpl; [done|]. by intros [= <-].
  - rewrite last_cons_cons. apply IH.
Qed.

Lemma last_suffix (s t : str) (c : N) :
  s `suffix_of` t → last s = Some c → last t = Some c.
Proof. intros [pre ->] Hs. rewrite last_app. by rewrite Hs. Qed.

(** A line that is kept is longer than ten code points, starts with none of
    the characters that [lstrip] removes and does not end in whitespace. *)
Lemma kept_clean_line (line : str) :
  kept (clean_line line) = true →
  10 < length (clean_line line)
  ∧ (∀ c, head (clean_line line) = Some c → c ∉ notes_lstrip_chars)
  ∧ (∀ c, last (clean_line line) = Some c → PyStr.isspace c = false).
Proof.
  intros [_ Hlen%bool_decide_eq_true]%andb_true_iff. split; [done|]. split.
  - intros c Hc Hin. apply lstrip_by_head in Hc.
    apply char_in_elem_of in Hin. congruence.
  - intros c Hc. unfold clean_line, PyStr.lstrip in Hc.
    eapply last_suffix in Hc; [|apply lstrip_by_suffix].
    by apply rstrip_by_last in Hc.
Qed.

(** X2.  On the success path [generate_notes] returns at most ten notes,
    each a cleaned line of the reply, in the order of the reply; every note
    is longer than ten code points, does not start with a hyphen, a star, a
    digit, a period or a space (nor with any other character of the
    argument of [lstrip]), and does not end in whitespace. *)
Theorem generate_notes_returns_clean_notes {E : Env} (text : str)
    (w : World E) (vs : FAISS E) (reply : str) :
  vectorStore w = Some vs →
  llm_run E (length (calls w)) vs 4 (VStr notes_prompt) = Ok reply →
  ∃ w' notes,
    generate_notes text w = (w', Ok notes)
    ∧ length notes ≤ 10
    ∧ notes `sublist_of` (clean_line <$> PyStr.split 10 (PyStr.strip reply))
    ∧ Forall (λ note,
                10 < length note
                ∧ (∀ c, head note = Some c →
                        (c ∉ notes_lstrip_chars)
                        ∧ (c ∉ py "-*1234567890. "))
                ∧ (∀ c, last note = Some c → PyStr.isspace c = false))
        notes.
Proof.
  intros Hvs Hllm. eexists _, _. split.
  { by eapply generate_notes_success. }
  split; [apply parse_notes_length|]. rewrite parse_notes_filter. split.
  - etrans; [apply sublist_take|]. apply sublist_filter.
  - apply Forall_take. apply Forall_forall. intros note Hnote.
    apply list_elem_of_filter in Hnote as [Hkept Hin].
    apply list_elem_of_fmap in Hin as (line & -> & _).
    apply Is_true_true in Hkept.
    destruct (kept_clean_line line Hkept) as (Hlen & Hhead & Hlast).
    split; [done|]. split; [|done].
    intros c Hc. split; [by apply Hhead|].
    intros Hin. apply (Hhead c Hc). unfold notes_lstrip_chars.
    apply elem_of_app. by right.
Qed.

Lemma generate_notes_returns_clean_notes_witness :
  ∃ w' notes,
    generate_notes (E:=demo_env) (py "RAG") demo_world = (w', Ok notes)
    ∧ length notes ≤ 10
    ∧ notes `sublist_of`
        (clean_line <$> PyStr.split 10 (PyStr.strip demo_notes_reply))
    ∧ Forall (λ note,
                10 < length note
                ∧ (∀ c, head note = Some c →
                        (c ∉ notes_lstrip_chars)
                        ∧ (c ∉ py "-*1234567890. "))
                ∧ (∀ c, last note = Some c → PyStr.isspace c = false))
        notes.
Proof.
  exact (generate_notes_returns_clean_notes (E:=demo_env) (py "RAG")
           demo_world [py "An earlier document."] demo_notes_reply
           eq_refl eq_refl).
Defined.

(** ** Runs of the generation operations *)

Section Runs.
Context {E : Env}.

(** [generate_summary] on a text whose index can be built: whatever the
    model does, the index is installed and three library calls are made. *)
Lemma generate_summary_run text (w : World E) v :
  index_of text = Ok v →
  ∃ w',
    generate_summary text w
    = (w', Ok (summary_of
                 (llm_run E (length (calls w) + 2) v 3 (VStr summary_prompt))))
    ∧ vectorStore w' = Some v ∧ uuid_ctr w' = uuid_ctr w ∧ fs w' = fs w
    ∧ calls w'
      = calls w ++ [SplitText 1000 200 text;
                    FromTexts (split_text E 1000 200 text);
                    Retrieve 3 (VStr summary_prompt)].
Proof.
  intros Hidx.
  destruct (create_vector_store_run text w)
    as (w1 & Hrun & Hs & Hfs & Hctr & Hcalls & _).
  rewrite Hidx in Hrun, Hs.
  unfold generate_summary, try_except.
  erewrite bind_run by exact Hrun.
  unfold qa_chain_run, mbind, M_bind, record_call, lift_result, logger.
  rewrite Hcalls, length_app. cbn [length].
  destruct (llm_run E _ v 3 _) as [reply|e]; cbn -[py summary_prompt];
    (eexists; split; [reflexivity|]); cbn -[py summary_prompt];
    by rewrite <- app_assoc.
Qed.

Lemma generate_notes_run text (w : World E) v :
  vectorStore w = Some v →
  ∃ w',
    generate_notes text w
    = (w', Ok (notes_of
                 (llm_run E (length (calls w)) v 4 (VStr notes_prompt))))
    ∧ vectorStore w' = Some v ∧ uuid_ctr w' = uuid_ctr w ∧ fs w' = fs w
    ∧ calls w' = calls w ++ [Retrieve 4 (VStr notes_prompt)].
Proof.
  intros Hvs. unfold generate_notes, try_except.
  erewrite bind_run; last by (unfold get_vectorStore; rewrite Hvs).
  unfold qa_chain_run, mbind, M_bind, record_call, lift_result, logger.
  destruct (llm_run E _ v 4 _) as [reply|e]; cbn -[py notes_prompt];
    by eexists.
Qed.

Lemma generate_flashcards_run text (w : World E) v :
  vectorStore w = Some v →
  ∃ w',
    generate_flashcards text w
    = (w', Ok (flashcards_of (uuid_ctr w)
                 (llm_run E (length (calls w)) v 4 (VStr flashcards_prompt))))
    ∧ vectorStore w' = Some v ∧ fs w' = fs w
    ∧ calls w' = calls w ++ [Retrieve 4 (VStr flashcards_prompt)].
Proof.
  intros Hvs.
  destruct (llm_run E (length (calls w)) v 4 (VStr flashcards_prompt))
    as [reply|e] eqn:Hllm.
  - erewrite generate_flashcards_success by done. by eexists.
  - unfold generate_flashcards, try_except.
    erewrite bind_run; last by (unfold get_vectorStore; rewrite Hvs).
    erewrite bind_raise_run by (by apply qa_chain_run_fails).
    unfold mbind, M_bind, logger, uuid4. cbn -[py flashcards_prompt].
    by eexists.
Qed.

(** [generate_study_materials] on a text whose index can be built. *)
Lemma generate_study_materials_run text (w : World E) v :
  index_of text = Ok v →
  ∃ w',
    generate_study_materials text w
    = (w',
       Ok (VDict
             [(py "summary",
               VStr (summary_of
                       (llm_run E (length (calls w) + 4) v 3
                          (VStr summary_prompt))));
              (py "notes",
               VList (VStr <$> notes_of
                                 (llm_run E (length (calls w) + 5) v 4
                                    (VStr notes_prompt))));
              (py "flashcards",
               VList (flashcards_of (uuid_ctr w)
                        (llm_run E (length (calls w) + 6) v 4
                           (VStr flashcards_prompt))))]))
    ∧ vectorStore w' = Some v ∧ fs w' = fs w
    ∧ calls w' = calls w ++ study_materials_calls text.
Proof.
  intros Hidx.
  set (w0 := logged INFO (py "Starting study materials generation...") w).
  destruct (create_vector_store_run text w0)
    as (w1 & Hrun1 & Hs1 & Hfs1 & Hctr1 & Hcalls1 & _).
  rewrite Hidx in Hrun1, Hs1.
  destruct (generate_summary_run text w1 v Hidx)
    as (w2 & Hrun2 & Hs2 & Hctr2 & Hfs2 & Hcalls2).
  destruct (generate_notes_run text w2 v Hs2)
    as (w3 & Hrun3 & Hs3 & Hctr3 & Hfs3 & Hcalls3).
  destruct (generate_flashcards_run text w3 v Hs3)
    as (w4 & Hrun4 & Hs4 & Hfs4 & Hcalls4).
  assert (length (calls w1) + 2 = length (calls w) + 4) as Hn1.
  { rewrite Hcalls1, length_app. simpl. lia. }
  assert (length (calls w2) = length (calls w) + 5) as Hn2.
  { rewrite Hcalls2, Hcalls1, !length_app. simpl. lia. }
  assert (length (calls w3) = length (calls w) + 6) as Hn3.
  { rewrite Hcalls3, Hcalls2, Hcalls1, !length_app. simpl. lia. }
  rewrite Hn1 in Hrun2. rewrite Hn2 in Hrun3.
  rewrite Hn3, Hctr3, Hctr2, Hctr1 in Hrun4.
  unfold generate_study_materials, try_except.
  erewrite bind_run by reflexivity. fold w0.
  erewrite bind_run by exact Hrun1.
  erewrite bind_run by exact Hrun2.
  erewrite bind_run by exact Hrun3.
  erewrite bind_run by exact Hrun4.
  erewrite bind_run by reflexivity.
  eexists. split; [reflexivity|]. cbn -[py].
  split; [done|]. split; [by rewrite Hfs4, Hfs3, Hfs2, Hfs1|].
  rewrite Hcalls4, Hcalls3, Hcalls2, Hcalls1. unfold study_materials_calls.
  simpl. by rewrite <- !app_assoc.
Qed.

(** [generate_study_materials] on a text whose index cannot be built. *)
Lemma generate_study_materials_fail_run text (w : World E) e :
  index_of text = Raise e →
  ∃ w',
    generate_study_materials text w
    = (w', Ok (fallback_materials (uuid_gen E (uuid_ctr w))))
    ∧ vectorStore w' = vectorStore w ∧ fs w' = fs w
    ∧ calls w'
      = calls w ++ [SplitText 1000 200 text;
                    FromTexts (split_text E 1000 200 text)].
Proof.
  intros Hidx.
  set (w0 := logged INFO (py "Starting study materials generation...") w).
  destruct (create_vector_store_run text w0)
    as (w1 & Hrun & Hs & Hfs & Hctr & Hcalls & _).
  rewrite Hidx in Hrun, Hs.
  unfold generate_study_materials, try_except.
  erewrite bind_run by reflexivity. fold w0.
  erewrite bind_raise_run by exact Hrun.
  unfold mbind, M_bind, logger, uuid4. cbn -[py].
  eexists. split; [by rewrite Hctr|]. cbn -[py]. by rewrite Hs, Hfs, Hcalls.
Qed.

(** With an empty question in progress and no line that opens a record,
    nothing is ever completed. *)
Lemma spec_records_no_question (lines : list str) (a : str) :
  Forall (λ line, PyStr.startswith (py "Q:") (PyStr.strip line) = false)
    lines →
  spec_records [] a lines = [].
Proof.
  intros Hlines. revert a.
  induction Hlines as [|line lines Hline _ IH]; intros a;
    cbn [spec_records]; [done|].
  rewrite Hline.
  destruct (PyStr.startswith (py "A:") (PyStr.strip line)); [apply IH|].
  destruct (PyStr.strip line), a; apply IH.
Qed.

End Runs.

(** ** How [generate_study_materials] composes its parts *)

(** X3.  On a text whose index can be built, [generate_study_materials]
    splits and embeds the text twice (once itself, once again inside
    [generate_summary]) and then queries the model exactly three times, with
    [k = 3] for the summary and [k = 4] for the notes and the flashcards, in
    this order and whatever the model answers; on a text whose index cannot
    be built it splits and tries to embed once and never queries the
    model. *)
Theorem study_materials_library_calls {E : Env} (text : str) (w : World E) :
  (∀ v, index_of text = Ok v →
        calls (generate_study_materials text w).1
        = calls w ++ [SplitText 1000 200 text;
                      FromTexts (split_text E 1000 200 text);
                      SplitText 1000 200 text;
                      FromTexts (split_text E 1000 200 text);
                      Retrieve 3 (VStr summary_prompt);
                      Retrieve 4 (VStr notes_prompt);
                      Retrieve 4 (VStr flashcards_prompt)])
  ∧ (∀ e, index_of text = Raise e →
          calls (generate_study_materials text w).1
          = calls w ++ [SplitText 1000 200 text;
                        FromTexts (split_text E 1000 200 text)]).
Proof.
  split.
  - intros v Hidx.
    by destruct (generate_study_materials_run text w v Hidx)
      as (w' & -> & _ & _ & Hcalls).
  - intros e Hidx.
    by destruct (generate_study_materials_fail_run text w e Hidx)
      as (w' & -> & _ & _ & Hcalls).
Qed.

Lemma study_materials_library_calls_witness :
  calls (generate_study_materials (E:=demo_env) (py "RAG") initial_world).1
  = [SplitText 1000 200 (py "RAG"); FromTexts [py "RAG"];
     SplitText 1000 200 (py "RAG"); FromTexts [py "RAG"];
     Retrieve 3 (VStr summary_prompt); Retrieve 4 (VStr notes_prompt);
     Retrieve 4 (VStr flashcards_prompt)]
  ∧ calls (generate_study_materials (E:=no_embeddings_env) (py "RAG")
             initial_world).1
    = [SplitText 1000 200 (py "RAG"); FromTexts [py "RAG"]].
Proof.
  split.
  - exact (proj1 (study_materials_library_calls (E:=demo_env) (py "RAG")
                    initial_world) [py "RAG"] eq_refl).
  - exact (proj2 (study_materials_library_calls (E:=no_embeddings_env)
                    (py "RAG") initial_world)
             (Exn OtherException (py "embedding model unavailable")) eq_refl).
Defined.

(** X4.  On a text whose index can be built, each part of the study
    materials depends on its own model call only: the summary is the reply
    to the summary prompt, stripped, the notes are parsed from the reply to
    the notes prompt, the flashcards from the reply to the flashcards
    prompt, and a call that fails is replaced by the fallback of its part
    while the other parts are still produced from their replies. *)
Theorem study_materials_parts_are_independent {E : Env} (text : str)
    (w : World E) (v : FAISS E) :
  index_of text = Ok v →
  (generate_study_materials text w).2
  = Ok (VDict
          [(py "summary",
            VStr (summary_of
                    (llm_run E (length (calls w) + 4) v 3
                       (VStr summary_prompt))));
           (py "notes",
            VList (VStr <$> notes_of
                              (llm_run E (length (calls w) + 5) v 4
                                 (VStr notes_prompt))));
           (py "flashcards",
            VList (flashcards_of (uuid_ctr w)
                     (llm_run E (length (calls w) + 6) v 4
                        (VStr flashcards_prompt))))]).
Proof.
  intros Hidx.
  by destruct (generate_study_materials_run text w v Hidx) as (w' & -> & _).
Qed.

Lemma study_materials_parts_are_independent_witness :
  (generate_study_materials (E:=notes_only_env) (py "RAG") initial_world).2
  = Ok (VDict
          [(py "summary",
            VStr (py "Failed to generate summary. Please try again."));
           (py "notes",
            VList [VStr (py "Retrieval selects the chunks closest to the query.");
                   VStr ([8226; 32]%N ++ py "Embeddings map text to vectors.");
                   VStr (py "An index answers nearest-neighbour queries.")]);
           (py "flashcards",
            VList [flashcard (demo_uuid 0) (py "Error generating flashcards")
                     (py "Please try again with a different document.")])]).
Proof.
  exact (study_materials_parts_are_independent (E:=notes_only_env) (py "RAG")
           initial_world [py "RAG"] eq_refl).
Defined.

(** ** Edge cases of the generation operations *)

(** X13.  On the success path, a reply none of whose lines starts with [Q:]
    once stripped gives no flashcard at all: [generate_flashcards] returns
    the empty list, not its fallback card, and draws no identifier. *)
Theorem generate_flashcards_without_questions {E : Env} (text : str)
    (w : World E) (vs : FAISS E) (reply : str) :
  vectorStore w = Some vs →
  llm_run E (length (calls w)) vs 4 (VStr flashcards_prompt) = Ok reply →
  Forall (λ line, PyStr.startswith (py "Q:") (PyStr.strip line) = false)
    (PyStr.split 10 (PyStr.strip reply)) →
  (generate_flashcards text w).2 = Ok []
  ∧ uuid_ctr (generate_flashcards text w).1 = uuid_ctr w.
Proof.
  intros Hvs Hllm Hlines.
  erewrite generate_flashcards_success by done.
  by rewrite (spec_records_no_question _ _ Hlines).
Qed.

Lemma generate_flashcards_without_questions_witness :
  (generate_flashcards (E:=prose_env) (py "RAG")
     (@Build_World prose_env (Some [py "RAG"]) [] 0 ∅ [])).2 = Ok []
  ∧ uuid_ctr (generate_flashcards (E:=prose_env) (py "RAG")
                (@Build_World prose_env (Some [py "RAG"]) [] 0 ∅ [])).1 = 0.
Proof.
  refine (generate_flashcards_without_questions (E:=prose_env) (py "RAG")
            (@Build_World prose_env (Some [py "RAG"]) [] 0 ∅ [])
            [py "RAG"] _ eq_refl eq_refl _).
  vm_compute. repeat constructor.
Defined.

(** X14.  When the index of a text cannot be built, [create_vector_store]
    logs the failure as an error and raises the very exception of the
    builder again, and [vectorStore] keeps the value it had. *)
Theorem create_vector_store_reraises {E : Env} (text : str) (w : World E)
    (e : exn) :
  index_of text = Raise e →
  (create_vector_store text w).2 = Raise e
  ∧ vectorStore (create_vector_store text w).1 = vectorStore w
  ∧ last (log (create_vector_store text w).1)
    = Some (ERROR, py "Error creating vector store: " ++ exn_str e).
Proof.
  intros Hidx.
  destruct (create_vector_store_run text w)
    as (w' & -> & Hs & _ & _ & _ & new & Hlog & Hlast).
  rewrite Hidx in Hs |- *. cbn -[py]. split; [done|]. split; [done|].
  rewrite Hlog, last_app. by rewrite (Hlast e Hidx).
Qed.

Lemma create_vector_store_reraises_witness :
  (create_vector_store (E:=no_embeddings_env) (py "RAG") initial_world).2
  = Raise (Exn OtherException (py "embedding model unavailable")).
Proof.
  exact (proj1 (create_vector_store_reraises (E:=no_embeddings_env)
                  (py "RAG") initial_world
                  (Exn OtherException (py "embedding model unavailable"))
                  eq_refl)).
Defined.

(** X15.  Called while no index has been installed, [generate_notes] and
    [generate_flashcards] do not raise and do not call the model: reading
    [vectorStore] fails, the failure is logged, and each returns its
    fallback (one note, one card with an identifier drawn for it). *)
Theorem generation_without_index {E : Env} (text : str) (w : World E) :
  vectorStore w = None →
  let missing := py "'AIService' object has no attribute 'vectorStore'" in
  generate_notes text w
  = (logged ERROR (py "Error generating notes: " ++ missing) w,
     Ok [py "Failed to generate notes. Please try again."])
  ∧ generate_flashcards text w
    = (drawn 1
         (logged ERROR (py "Error generating flashcards: " ++ missing) w),
       Ok [flashcard (uuid_gen E (uuid_ctr w))
             (py "Error generating flashcards")
             (py "Please try again with a different document.")]).
Proof.
  intros Hvs missing. split.
  - unfold generate_notes, try_except.
    erewrite bind_raise_run; last by (unfold get_vectorStore; rewrite Hvs).
    done.
  - unfold generate_flashcards, try_except.
    erewrite bind_raise_run; last by (unfold get_vectorStore; rewrite Hvs).
    done.
Qed.

Lemma generation_without_index_witness :
  (generate_notes (E:=demo_env) (py "RAG") initial_world).2
  = Ok [py "Failed to generate notes. Please try again."].
Proof.
  exact (f_equal snd
           (proj1 (generation_without_index (E:=demo_env) (py "RAG")
                     initial_world eq_refl))).
Defined.

(** ** The upload handler and the index *)

Section UploadRuns.
Context {E : Env}.

(** A valid upload with text in it, step by step: the materials are those of
    [generate_study_materials] run in the state [generating], and what
    follows (a log entry and the clean-up) touches neither the index nor the
    library calls. *)
Lemma process_pdf_text_run (req : Request) (w : World E) file text :
  (content_length req ≤ MAX_CONTENT_LENGTH)%N →
  files_get (py "pdf") (files req) = Some file →
  filename file ≠ [] →
  allowed_file (filename file) = true →
  save_fault E (upload_path w file) = None →
  extract_text E (stream file) = Ok text →
  PyStr.strip text ≠ [] →
  ∃ w1 materials w',
    generate_study_materials text (generating file w) = (w1, Ok materials)
    ∧ dispatch process_pdf req w
      = (w', {| status := 200; body := materials |})
    ∧ vectorStore w' = vectorStore w1 ∧ calls w' = calls w1
    ∧ uuid_ctr w' = uuid_ctr w1.
Proof.
  intros Hlen Hfile Hname Hallowed Hsave Hext Htext.
  destruct (extract_and_generate_text _ _ _ _ (saved_lookup file w) Hext Htext)
    as (w1 & materials & Hgen & Hrun).
  exists w1, materials.
  pose proof (generate_study_materials_same_fs text (generating file w))
    as Hfs.
  unfold generating in Hfs. rewrite Hgen in Hfs. unfold same_fs in Hfs.
  simpl in Hfs.
  assert (fs (logged INFO (py "Study materials generated successfully") w1)
            !! upload_path w file = Some (stream file)) as Hthere.
  { cbn -[py]. rewrite Hfs. apply lookup_insert_eq. }
  pose proof (clean_up_run _ _ _ Hthere) as Hclean.
  unfold dispatch. rewrite (process_pdf_saved req w file) by done.
  destruct (remove_fault E (upload_path w file));
    rewrite (try_finally_run _ _ _ _ _ _ Hrun Hclean);
    by eexists.
Qed.

Lemma generating_fields (file : FileStorage) (w : World E) :
  vectorStore (generating file w) = vectorStore w
  ∧ calls (generating file w) = calls w
  ∧ uuid_ctr (generating file w) = S (uuid_ctr w).
Proof. done. Qed.

Lemma existsb_message (l : list value) :
  VStr (py "message") ∈ l →
  existsb (λ x, match x with
                | VStr s => bool_decide (s = py "message")
                | _ => false
                end) l = true.
Proof.
  intros Hin. induction l as [|x l IH]; [by apply elem_of_nil in Hin|].
  apply elem_of_cons in Hin as [<-|Hin]; cbn -[py].
  - by rewrite bool_decide_true.
  - rewrite (IH Hin). apply orb_true_r.
Qed.

Lemma query_response_run (m : value) (w : World E) :
  (query_response m w).2 = Ok (answer_of w m)
  ∧ vectorStore (query_response m w).1 = vectorStore w.
Proof.
  unfold query_response, try_except, answer_of, qa_chain_call.
  unfold get_vectorStore, mbind, M_bind, record_call, lift_result, logger,
    uuid4.
  destruct (vectorStore w) as [v|] eqn:Hvs; cbn -[py]; [|done].
  destruct (chain_inputs m) as [[inputs q]|e]; cbn -[py]; [|done].
  by destruct (llm_run E _ v 4 q).
Qed.

End UploadRuns.

Section Views.
Context {E : Env}.

Lemma dict_get_Some_key (k : str) (items : list (str * value)) (v : value) :
  dict_get k items = Some v → k ∈ items.*1.
Proof.
  induction items as [|[k' v'] items IH]; simpl; [done|].
  case_bool_decide; [intros _; subst; apply list_elem_of_here|].
  intros Hget. apply list_elem_of_further. by apply IH.
Qed.

(** The query view on an object with a message. *)
Lemma query_pdf_message_run (req : Request) (w : World E) items m :
  get_json req = Ok (VDict items) →
  dict_get (py "message") items = Some m →
  dispatch query_pdf req w
  = ((query_response m w).1,
     {| status := 200; body := VDict [(py "response", answer_of w m)] |}).
Proof.
  intros Hjson Hm.
  pose proof (dict_get_Some_key _ _ _ Hm) as Hkey.
  destruct (query_response_run m w) as [Hans _].
  destruct (query_response m w) as [w' r] eqn:Hq. simpl in Hans. subst r.
  unfold dispatch, query_pdf, try_except.
  erewrite bind_run by (by rewrite Hjson).
  assert (value_truthy (VDict items) = true) as ->.
  { destruct items; [by apply elem_of_nil in Hkey | done]. }
  cbn [negb].
  erewrite bind_run;
    last by (unfold lift_result; cbn -[py]; rewrite bool_decide_true).
  cbn [negb].
  erewrite bind_run; last by (unfold lift_result; cbn -[py]; rewrite Hm).
  erewrite bind_run by exact Hq. done.
Qed.

Lemma no_raise_raises_only {A} (P : exn → Prop) (m : M A) :
  no_raise m → raises_only P m.
Proof.
  intros Hm w w' e Hrun. destruct (Hm w) as [a Ha].
  rewrite Hrun in Ha. done.
Qed.

Lemma raises_only_try_except {A} (P : exn → Prop) (body : M A)
    (handler : exn → M A) :
  (∀ e, raises_only P (handler e)) →
  raises_only P (try_except body handler).
Proof.
  intros Hh w w' e. unfold try_except.
  destruct (body w) as [w1 [a|e1]]; [done|]. apply Hh.
Qed.

(** The upload view raises nothing but [RequestEntityTooLarge]. *)
Lemma process_pdf_raises_only (req : Request) :
  raises_only (λ e, exn_cls e = RequestEntityTooLarge) (process_pdf req).
Proof.
  unfold process_pdf. apply raises_only_try_except. intros e.
  destruct (exn_cls e) eqn:Hcls.
  - intros w w' e' [= _ <-]. done.
  - apply no_raise_raises_only. eauto with frame.
  - apply no_raise_raises_only. eauto with frame.
Qed.

(** Every response that the upload view returns is either the study
    materials with status 200 or an error object with status 400 or 500. *)
Lemma process_pdf_returns_json (req : Request) :
  returns (λ r, status r = 200 ∧ is_study_materials (body r)
                ∨ (status r = 400 ∨ status r = 500) ∧ is_error r)
    (process_pdf req).
Proof.
  unfold process_pdf.
  repeat first
    [ apply returns_try_except; [|intros ?]
    | apply returns_try_finally
    | apply returns_raise
    | apply returns_ret;
      first [ by left
            | right; split; [by left | by eexists]
            | right; split; [by right | by eexists] ]
    | eapply returns_bind;
      [first [apply generate_study_materials_returns | apply returns_True]
      |intros ? ?]
    | match goal with
      | |- returns _ (if ?b then _ else _) => destruct b
      | |- returns _ (match ?x with _ => _ end) => destruct x
      end ].
Qed.

Lemma query_pdf_no_raise (req : Request) : no_raise (query_pdf req).
Proof. unfold query_pdf. eauto 10 with frame. Qed.

Lemma query_pdf_returns_json (req : Request) :
  returns (λ r, status r = 200 ∧ (∃ answer,
                                    body r = VDict [(py "response", answer)])
                ∨ (status r = 400 ∨ status r = 500) ∧ is_error r)
    (query_pdf req).
Proof.
  unfold query_pdf.
  repeat first
    [ apply returns_try_except; [|intros ?]
    | apply returns_ret;
      first [ left; split; [done | by eexists]
            | right; split; [by left | by eexists]
            | right; split; [by right | by eexists] ]
    | eapply returns_bind; [apply returns_True|intros ? ?]
    | match goal with
      | |- returns _ (if ?b then _ else _) => destruct b
      | |- returns _ (match ?x with _ => _ end) => destruct x
      end ].
Qed.

End Views.

(** ** What the upload view does to the process *)

(** X5.  A valid upload whose extracted text is blank is answered with 400
    and [No text could be extracted from the PDF]; no library is called for
    it and the index of the service is left as it was. *)
Theorem blank_pdf_is_refused {E : Env} (req : Request) (w : World E)
    (file : FileStorage) (text : str) :
  (content_length req ≤ MAX_CONTENT_LENGTH)%N →
  files_get (py "pdf") (files req) = Some file →
  filename file ≠ [] →
  allowed_file (filename file) = true →
  save_fault E (upload_path w file) = None →
  extract_text E (stream file) = Ok text →
  PyStr.strip text = [] →
  (dispatch process_pdf req w).2
  = error_response (py "No text could be extracted from the PDF") 400
  ∧ calls (dispatch process_pdf req w).1 = calls w
  ∧ vectorStore (dispatch process_pdf req w).1 = vectorStore w.
Proof.
  intros Hlen Hfile Hname Hallowed Hsave Hext Hblank.
  unfold dispatch. rewrite (process_pdf_saved req w file) by done.
  pose proof (extract_and_generate_blank _ _ _ _
                (saved_lookup file w) Hext Hblank) as Hbody.
  pose proof (clean_up_run (upload_path w file)
                (logged INFO (py "Extracting text from PDF...")
                   (saved file w))
                (stream file) (saved_lookup file w)) as Hclean.
  destruct (remove_fault E (upload_path w file));
    by rewrite (try_finally_run _ _ _ _ _ _ Hbody Hclean).
Qed.

Lemma blank_pdf_is_refused_witness :
  (dispatch (E:=demo_env) process_pdf
     {| content_length := 2;
        form := Some [(py "pdf", {| filename := py "blank.pdf";
                                stream := [Byte.x20; Byte.x0a] |})];
        get_json := Raise (Exn OtherException (py "415")) |}
     demo_world).2
  = error_response (py "No text could be extracted from the PDF") 400.
Proof.
  refine (proj1 (blank_pdf_is_refused (E:=demo_env)
                   {| content_length := 2;
                      form := Some [(py "pdf",
                                 {| filename := py "blank.pdf";
                                    stream := [Byte.x20; Byte.x0a] |})];
                      get_json := Raise (Exn OtherException (py "415")) |}
                   demo_world
                   {| filename := py "blank.pdf";
                      stream := [Byte.x20; Byte.x0a] |}
                   [32; 10]%N _ _ _ _ _ _ _)); by vm_compute.
Defined.

(** X6.  A request that the upload view refuses before saving anything (a
    body longer than 4MB, no [pdf] part, an empty file name, a name that
    [allowed_file] refuses) leaves the process as it was: nothing is
    written to the upload directory, nothing is logged, no identifier is
    drawn and the index is untouched. *)
Theorem refused_upload_changes_nothing {E : Env} (req : Request)
    (w : World E) :
  (MAX_CONTENT_LENGTH < content_length req)%N
  ∨ files_get (py "pdf") (files req) = None
  ∨ (∃ file, files_get (py "pdf") (files req) = Some file
             ∧ (filename file = [] ∨ allowed_file (filename file) = false)) →
  (dispatch process_pdf req w).1 = w.
Proof.
  intros Hbad.
  destruct (decide (MAX_CONTENT_LENGTH < content_length req)%N)
    as [Hlen|Hlen]; [by rewrite process_pdf_too_large|].
  apply N.nlt_ge in Hlen.
  destruct (form req) as [parts|] eqn:Hform;
    [|by rewrite process_pdf_form_refused].
  destruct Hbad as [?|[Hnone|(file & Hfile & Hbad)]]; [lia| |].
  { rewrite process_pdf_no_file; [done..|by rewrite Hform|done]. }
  destruct (decide (filename file = [])) as [Hname|Hname].
  { by erewrite process_pdf_no_name. }
  destruct Hbad as [?|Hext]; [done|].
  by erewrite process_pdf_not_allowed.
Qed.

Lemma refused_upload_changes_nothing_witness :
  (dispatch (E:=demo_env) process_pdf (upload "notes.docx") demo_world).1
  = demo_world.
Proof.
  apply (refused_upload_changes_nothing (E:=demo_env)).
  right. right.
  exists {| filename := py "notes.docx"; stream := demo_pdf |}.
  split; [by vm_compute|]. right. by vm_compute.
Defined.

(** X7.  Whatever the request and the state, the upload route answers with
    a JSON object: the study materials with status 200, or an object with
    the one key [error] with status 400, 413 or 500; the view raises nothing
    but the error of an oversized body, so the framework's own error page
    is never sent. *)
Theorem process_pdf_always_answers_json {E : Env} (req : Request)
    (w : World E) :
  let r := (dispatch process_pdf req w).2 in
  status r = 200 ∧ is_study_materials (body r)
  ∨ (status r = 400 ∨ status r = 413 ∨ status r = 500) ∧ is_error r.
Proof.
  unfold dispatch.
  destruct (process_pdf req w) as [w' [r|e]] eqn:Hrun; cbn -[py].
  - destruct (process_pdf_returns_json req _ _ _ Hrun) as [?|[[?|?] ?]];
      [by left | right; split; [by left | done]
      | right; split; [by right; right | done]].
  - rewrite (process_pdf_raises_only req _ _ _ Hrun). right.
    split; [by right; left | by eexists].
Qed.

(** ** The query view *)

(** X8.  A query whose JSON body is null, false, zero, an empty string, an
    empty list or an empty object, or an object without the key [message],
    is answered with 400 and [Message is required], and the process is left
    as it was. *)
Theorem query_without_message_is_refused {E : Env} (req : Request)
    (w : World E) (data : value) :
  get_json req = Ok data →
  value_truthy data = false
  ∨ (∃ items, data = VDict items ∧ py "message" ∉ items.*1) →
  dispatch query_pdf req w
  = (w, error_response (py "Message is required") 400).
Proof.
  intros Hjson Hbad. unfold dispatch, query_pdf, try_except.
  erewrite bind_run by (by rewrite Hjson).
  destruct (value_truthy data) eqn:Htruthy; cbn [negb].
  - destruct Hbad as [?|(items & -> & Hkey)]; [done|].
    erewrite bind_run;
      last by (unfold lift_result; cbn -[py]; rewrite bool_decide_false).
    done.
  - by rewrite bind_ret_run.
Qed.

Lemma query_without_message_is_refused_witness :
  dispatch (E:=demo_env) query_pdf
    {| content_length := 20; form := Some [];
       get_json := Ok (VDict [(py "question", VStr (py "hi"))]) |}
    demo_world
  = (demo_world, error_response (py "Message is required") 400).
Proof.
  refine (query_without_message_is_refused (E:=demo_env)
            {| content_length := 20; form := Some [];
               get_json := Ok (VDict [(py "question", VStr (py "hi"))]) |}
            demo_world
            (VDict [(py "question", VStr (py "hi"))]) eq_refl _).
  right. eexists. split; [done|].
  apply (bool_decide_unpack _). by vm_compute.
Defined.

(** X9.  A query whose body cannot be read as JSON, or is a JSON list with
    the string [message] among its elements, a JSON string with [message]
    inside it, [true], or a number other than zero, passes or breaks the
    check on [message] and then fails in the view: it is answered with 500
    and [Failed to get response], not with 400; the model is not called and
    the index is untouched. *)
Theorem query_with_odd_body_is_500 {E : Env} (req : Request) (w : World E) :
  (∃ e, get_json req = Raise e)
  ∨ (∃ l, get_json req = Ok (VList l) ∧ VStr (py "message") ∈ l)
  ∨ (∃ s, get_json req = Ok (VStr s)
          ∧ PyStr.contains (py "message") s = true)
  ∨ get_json req = Ok (VBool true)
  ∨ (∃ n, get_json req = Ok (VNum n) ∧ n ≠ 0%Z) →
  (dispatch query_pdf req w).2
  = error_response (py "Failed to get response") 500
  ∧ calls (dispatch query_pdf req w).1 = calls w
  ∧ vectorStore (dispatch query_pdf req w).1 = vectorStore w.
Proof.
  intros Hbody. unfold dispatch, query_pdf, try_except.
  destruct Hbody
    as [[e He]|[(l & Hl & Hin)|[(s & Hs & Hin)|[Hb|(n & Hn & Hnz)]]]].
  - erewrite bind_raise_run by (by rewrite He). done.
  - erewrite bind_run by (by rewrite Hl).
    assert (value_truthy (VList l) = true) as ->.
    { destruct l; [by apply elem_of_nil in Hin | done]. }
    cbn [negb].
    erewrite bind_run;
      last by (unfold lift_result; cbn -[py]; rewrite existsb_message).
    cbn [negb].
    erewrite bind_raise_run by reflexivity. done.
  - erewrite bind_run by (by rewrite Hs).
    assert (value_truthy (VStr s) = true) as ->.
    { by destruct s. }
    cbn [negb].
    erewrite bind_run;
      last by (unfold lift_result; cbn -[py]; rewrite Hin).
    cbn [negb].
    erewrite bind_raise_run by reflexivity. done.
  - erewrite bind_run by (by rewrite Hb). cbn [value_truthy negb].
    erewrite bind_raise_run by reflexivity. done.
  - erewrite bind_run by (by rewrite Hn).
    assert (value_truthy (VNum n) = true) as ->.
    { cbn. by destruct (Z.eqb_spec n 0). }
    cbn [negb].
    erewrite bind_raise_run by reflexivity. done.
Qed.

Lemma query_with_odd_body_is_500_witness :
  (dispatch (E:=demo_env) query_pdf
     {| content_length := 20; form := Some [];
        get_json := Ok (VList [VStr (py "message"); VStr (py "hi")]) |}
     demo_world).2
  = error_response (py "Failed to get response") 500.
Proof.
  refine (proj1 (query_with_odd_body_is_500 (E:=demo_env)
                   {| content_length := 20; form := Some [];
                      get_json :=
                        Ok (VList [VStr (py "message"); VStr (py "hi")]) |}
                   demo_world _)).
  right. left. eexists. split; [done|]. constructor.
Defined.

(** X10.  A query whose JSON body is an object with the key [message] is
    answered with status 200 in every state of the service.  Under
    [response] comes what the chain returns when there is an index, the
    chain accepts the message and the model answers: the chain's inputs
    together with [result], that is [{query, result}] for a message that is
    not an object, and the object itself with [result] set for a message
    that is an object with the key [query].  In every other case (no index,
    an object without [query], a failing model) the one-element fallback
    list comes under [response], so a failure is never reported as an HTTP
    error. *)
Theorem query_with_message_is_200 {E : Env} (req : Request) (w : World E)
    (items : list (str * value)) (m : value) :
  get_json req = Ok (VDict items) →
  dict_get (py "message") items = Some m →
  let fallback :=
    VList [VDict [(py "id", VStr (uuid_gen E (uuid_ctr w)));
                  (py "message", VStr (py "Something went wrong"))]] in
  (dispatch query_pdf req w).2
  = {| status := 200;
       body :=
         VDict [(py "response",
                 match vectorStore w, chain_inputs m with
                 | Some v, Ok (inputs, q) =>
                     match llm_run E (length (calls w)) v 4 q with
                     | Ok answer =>
                         VDict (dict_set (py "result") (VStr answer) inputs)
                     | Raise _ => fallback
                     end
                 | _, _ => fallback
                 end)] |}
  ∧ (∀ s v answer,
       m = VStr s →
       vectorStore w = Some v →
       llm_run E (length (calls w)) v 4 m = Ok answer →
       (dispatch query_pdf req w).2
       = {| status := 200;
            body := VDict [(py "response",
                            VDict [(py "query", m);
                                   (py "result", VStr answer)])] |})
  ∧ (∀ d, m = VDict d → dict_get (py "query") d = None →
       (dispatch query_pdf req w).2
       = {| status := 200; body := VDict [(py "response", fallback)] |}).
Proof.
  intros Hjson Hm fallback.
  rewrite (query_pdf_message_run req w items m) by done.
  cbn [snd]. unfold answer_of. split; [|split].
  - by destruct (vectorStore w), (chain_inputs m) as [[inputs q]|e].
  - intros s v answer -> Hvs Hllm. rewrite Hvs. cbn [chain_inputs].
    by rewrite Hllm.
  - intros d -> Hd. cbn [chain_inputs]. rewrite Hd. by destruct (vectorStore w).
Qed.

Lemma query_with_message_is_200_witness :
  (dispatch (E:=demo_env) query_pdf
     {| content_length := 20; form := Some [];
        get_json := Ok (VDict [(py "message", VStr (py "What is k?"))]) |}
     demo_world).2
  = {| status := 200;
       body := VDict [(py "response",
                       VDict [(py "query", VStr (py "What is k?"));
                              (py "result", VStr (py "An answer."))])] |}.
Proof.
  exact (proj1 (proj2
           (query_with_message_is_200 (E:=demo_env)
              {| content_length := 20; form := Some [];
                 get_json :=
                   Ok (VDict [(py "message", VStr (py "What is k?"))]) |}
              demo_world [(py "message", VStr (py "What is k?"))]
              (VStr (py "What is k?")) eq_refl eq_refl))
           (py "What is k?") [py "An earlier document."] (py "An answer.")
           eq_refl eq_refl eq_refl).
Defined.

(** X16.  Whatever the request and the state, the query route answers with
    a JSON object: an object with the one key [response] with status 200,
    or an object with the one key [error] with status 400 or 500; the view
    never raises. *)
Theorem query_pdf_always_answers_json {E : Env} (req : Request)
    (w : World E) :
  let r := (dispatch query_pdf req w).2 in
  status r = 200 ∧ (∃ answer, body r = VDict [(py "response", answer)])
  ∨ (status r = 400 ∨ status r = 500) ∧ is_error r.
Proof.
  unfold dispatch. destruct (query_pdf_no_raise req w) as [r Hr].
  destruct (query_pdf req w) as [w' res] eqn:Hrun. simpl in Hr. subst res.
  by apply (query_pdf_returns_json req _ _ _ Hrun).
Qed.

(** ** Upload, then query *)

(** X11.  After a valid upload with text whose index can be built, the
    service holds the index of that text, seven library calls have been
    made, and a following query whose message is a string is answered by
    the model run over that index: its reply comes back as
    [{query, result}] under [response]. *)
Theorem query_after_upload {E : Env} (req1 req2 : Request) (w : World E)
    (file : FileStorage) (text : str) (v : FAISS E)
    (items : list (str * value)) (s : str) (answer : str) :
  (content_length req1 ≤ MAX_CONTENT_LENGTH)%N →
  files_get (py "pdf") (files req1) = Some file →
  filename file ≠ [] →
  allowed_file (filename file) = true →
  save_fault E (upload_path w file) = None →
  extract_text E (stream file) = Ok text →
  PyStr.strip text ≠ [] →
  index_of text = Ok v →
  get_json req2 = Ok (VDict items) →
  dict_get (py "message") items = Some (VStr s) →
  llm_run E (length (calls w) + 7) v 4 (VStr s) = Ok answer →
  let w1 := (dispatch process_pdf req1 w).1 in
  vectorStore w1 = Some v
  ∧ calls w1 = calls w ++ study_materials_calls text
  ∧ (dispatch query_pdf req2 w1).2
    = {| status := 200;
         body := VDict [(py "response",
                         VDict [(py "query", VStr s);
                                (py "result", VStr answer)])] |}.
Proof.
  intros Hlen Hfile Hname Hallowed Hsave Hext Htext Hidx Hjson Hm Hllm w1.
  destruct (process_pdf_text_run req1 w file text)
    as (wg & materials & w' & Hgen & Hrun & Hs & Hcalls & _); [done..|].
  destruct (generate_study_materials_run text (generating file w) v Hidx)
    as (wg' & Hgen' & Hs' & _ & Hcalls').
  rewrite Hgen in Hgen'. injection Hgen' as <- _.
  subst w1. rewrite Hrun. cbn [fst].
  assert (vectorStore w' = Some v) as Hstore by congruence.
  assert (calls w' = calls w ++ study_materials_calls text) as Hcalled
    by (by rewrite Hcalls, Hcalls').
  split; [done|]. split; [done|].
  rewrite (query_pdf_message_run req2 w' items (VStr s)) by done.
  cbn [snd]. unfold answer_of.
  rewrite Hstore, Hcalled, length_app.
  cbn [length study_materials_calls chain_inputs].
  by rewrite Hllm.
Qed.

Lemma query_after_upload_witness :
  (dispatch (E:=demo_env) query_pdf
     {| content_length := 20; form := Some [];
        get_json := Ok (VDict [(py "message", VStr (py "What is k?"))]) |}
     (dispatch (E:=demo_env) process_pdf (upload "notes.pdf")
        initial_world).1).2
  = {| status := 200;
       body := VDict [(py "response",
                       VDict [(py "query", VStr (py "What is k?"));
                              (py "result", VStr (py "An answer."))])] |}.
Proof.
  refine (proj2 (proj2
            (query_after_upload (E:=demo_env) (upload "notes.pdf")
               {| content_length := 20; form := Some [];
                  get_json :=
                    Ok (VDict [(py "message", VStr (py "What is k?"))]) |}
               initial_world
               {| filename := py "notes.pdf"; stream := demo_pdf |}
               (py "RAG") [py "RAG"]
               [(py "message", VStr (py "What is k?"))]
               (py "What is k?") (py "An answer.")
               _ _ _ _ _ _ _ _ _ _ _))); by vm_compute.
Defined.

(** X12.  A valid upload with text whose index cannot be built is still
    answered with status 200, with the fallback study materials, and the
    service keeps the index it had: queries that follow are answered from
    the document uploaded before, if any. *)
Theorem upload_without_index_keeps_old_index {E : Env} (req : Request)
    (w : World E) (file : FileStorage) (text : str) (e : exn) :
  (content_length req ≤ MAX_CONTENT_LENGTH)%N →
  files_get (py "pdf") (files req) = Some file →
  filename file ≠ [] →
  allowed_file (filename file) = true →
  save_fault E (upload_path w file) = None →
  extract_text E (stream file) = Ok text →
  PyStr.strip text ≠ [] →
  index_of text = Raise e →
  (dispatch process_pdf req w).2
  = {| status := 200;
       body := fallback_materials (uuid_gen E (S (uuid_ctr w))) |}
  ∧ vectorStore (dispatch process_pdf req w).1 = vectorStore w.
Proof.
  intros Hlen Hfile Hname Hallowed Hsave Hext Htext Hidx.
  destruct (process_pdf_text_run req w file text)
    as (wg & materials & w' & Hgen & Hrun & Hs & _); [done..|].
  destruct (generate_study_materials_fail_run text (generating file w) e Hidx)
    as (wg' & Hgen' & Hs' & _).
  rewrite Hgen in Hgen'. injection Hgen' as <- ->.
  rewrite Hrun. cbn [fst snd]. split; [done|]. by rewrite Hs, Hs'.
Qed.

Lemma upload_without_index_keeps_old_index_witness :
  vectorStore
    (dispatch (E:=no_embeddings_env) process_pdf (upload "notes.pdf")
       (@Build_World no_embeddings_env (Some [py "An earlier document."])
          [] 5 ∅ [])).1
  = Some [py "An earlier document."].
Proof.
  refine (proj2
            (upload_without_index_keeps_old_index (E:=no_embeddings_env)
               (upload "notes.pdf")
               (@Build_World no_embeddings_env
                  (Some [py "An earlier document."]) [] 5 ∅ [])
               {| filename := py "notes.pdf"; stream := demo_pdf |}
               (py "RAG")
               (Exn OtherException (py "embedding model unavailable"))
               _ _ _ _ _ _ _ _)); by vm_compute.
Defined.

(** ** The names of the saved uploads *)

(** X17.  The path under which an upload is saved starts with the
    identifier drawn for it: identifiers having all the same length and
    identifiers drawn at different times being different (as the texts of
    [uuid4] are), two uploads are saved under different paths whatever
    their file names, also when the names are the same. *)
Theorem upload_paths_do_not_clash {E : Env} (w1 w2 : World E)
    (file1 file2 : FileStorage) :
  Inj (=) (=) (uuid_gen E) →
  (∀ n m, length (uuid_gen E n) = length (uuid_gen E m)) →
  uuid_ctr w1 ≠ uuid_ctr w2 →
  upload_path w1 file1 ≠ upload_path w2 file2.
Proof.
  intros Hinj Hlen Hctr Hpath. apply Hctr, Hinj.
  unfold upload_path, path_join in Hpath.
  do 2 apply app_inv_head in Hpath.
  by apply app_inj_1 in Hpath as [? _].
Qed.

Lemma upload_paths_do_not_clash_witness :
  upload_path (E:=serial_uuid_env) initial_world
    {| filename := py "notes.pdf"; stream := demo_pdf |}
  ≠ upload_path (E:=serial_uuid_env)
      (dispatch (E:=serial_uuid_env) process_pdf (upload "notes.pdf")
         initial_world).1
      {| filename := py "notes.pdf"; stream := demo_pdf |}.
Proof.
  apply (upload_paths_do_not_clash (E:=serial_uuid_env)).
  - intros n m [= Hnm]. by apply Nat2N.inj.
  - done.
  - by vm_compute.
Defined.
